(** * A movie catalogue over SQLite: storage layer and catalogue service

    A shallow embedding of [movie_storage_sql.py] (module [storage]) and of
    [movies.py] (module [movies]).

    Modelling choices, all of them read off the source:

    - Python [str] values are [string]s; a character is a code point below
      256, so [str.lower] and [str.strip] are the Latin-1 restrictions of
      the Python methods.
    - A [year] (a Python [int]) is a [Z].  The INTEGER column holds signed
      64-bit values: binding a year outside them makes the driver raise
      [OverflowError], which nothing in the program catches.
    - A stored [rating] (REAL, a Python [float]) is the exact rational [Q]
      that the finite binary64 value stands for; comparisons on [Q] agree
      with the comparisons of those floats.  Values that are computed,
      the sum of the ratings and their average, are binary64 floats
      ([py_float], the Standard Library's [spec_float] at precision 53),
      rounded as IEEE 754 prescribes and with infinities and NaN.  The
      places where a float meets text ([str], the [.1f] format,
      [float(s)]), [int(s)] and the summation of [sum] are the fields of
      the class [PyRuntime].
    - The [movies] table is the list of its rows in rowid order, which is
      the order of an unordered [SELECT]; the surrogate [id] is never
      selected and only fixes that order.
    - A call on the engine either runs its statement or raises one of
      SQLAlchemy's DBAPI error classes; a Python function either returns
      or lets an exception escape ([py_result]).
    - [print] appends one line to the list of printed lines; the prompt of
      [input] is not recorded.  Paths are joined with [/]. *)

From Stdlib Require Import List Bool Arith ZArith QArith Lia.
From Stdlib Require Import Ascii String DecimalString SpecFloat.
From Stdlib Require Import Permutation Sorted.
Import ListNotations.

Open Scope list_scope.
Open Scope string_scope.

(** ** Python values *)

(** The classes of [sqlalchemy.exc] the engine can raise.  [IntegrityError]
    and [OperationalError] are the two the source imports; [DatabaseError]
    is their common parent, raised as such for a DBAPI error of neither
    subclass.  Each carries the text of [str(e)]. *)
Inductive dbapi_error : Type :=
| IntegrityError (msg : string)
| OperationalError (msg : string)
| DatabaseError (msg : string).

(** Exceptions that can escape a function of the program. *)
Inductive exn : Type :=
| DBAPIError (e : dbapi_error)
| ZeroDivisionError
| ValueError
| EOFError
| OverflowError.

(** Outcome of a Python call: a returned value or an escaping exception. *)
Inductive py_result (A : Type) : Type :=
| Returned (a : A)
| Raised (e : exn).
Arguments Returned {A} a.
Arguments Raised {A} e.

(** The inner dict [{"year": .., "rating": .., "poster_url": ..}]. *)
Record movie_info : Type := mk_info {
  year : Z;
  rating : Q;
  poster_url : string
}.

(** A Python [dict] from titles to inner dicts, in insertion order. *)
Definition movie_dict : Type := list (string * movie_info).

(** [d[k] = v]: an existing key keeps its position and takes the new
    value, a new key goes last. *)
Fixpoint dict_setitem (d : movie_dict) (k : string) (v : movie_info)
  : movie_dict :=
  match d with
  | [] => [(k, v)]
  | (k', v') :: d' =>
      if String.eqb k' k then (k', v) :: d'
      else (k', v') :: dict_setitem d' k v
  end.

(** [d.get(k)]. *)
Fixpoint dict_get (d : movie_dict) (k : string) : option movie_info :=
  match d with
  | [] => None
  | (k', v) :: d' => if String.eqb k' k then Some v else dict_get d' k
  end.

(** ** The storage engine ([movie_storage_sql.py]) *)

Module storage.

(** One row of [movies] without its [id]:
    [title TEXT UNIQUE NOT NULL, year INTEGER NOT NULL,
     rating REAL NOT NULL, poster_url TEXT]. *)
Record row : Type := mk_row {
  row_title : string;
  row_year : Z;
  row_rating : Q;
  row_poster_url : string
}.

Definition table : Type := list row.

(** What [engine.connect()] and [connection.execute] do on this call:
    run the statement, or raise.  A failing engine raises as the connection
    is opened, before the statement and its parameters are looked at. *)
Inductive engine : Type :=
| Healthy
| Failing (e : dbapi_error).

Inductive sql_result (A : Type) : Type :=
| SqlOk (a : A)
| SqlError (e : dbapi_error).
Arguments SqlOk {A} a.
Arguments SqlError {A} e.

Definition titles (t : table) : list string := map row_title t.

Definition has_title (t : table) (title : string) : bool :=
  existsb (fun r => String.eqb (row_title r) title) t.

(** The UNIQUE constraint on [title]. *)
Definition unique_titles (t : table) : Prop := NoDup (titles t).

(** [SELECT title, year, rating, poster_url FROM movies] *)
Definition execute_select (eng : engine) (t : table) : sql_result (list row) :=
  match eng with
  | Failing e => SqlError e
  | Healthy => SqlOk t
  end.

(** The values an INTEGER column takes: signed 64-bit. *)
Definition in_int64 (n : Z) : bool :=
  ((- 2 ^ 63 <=? n) && (n <? 2 ^ 63))%Z.

(** [INSERT INTO movies (title, year, rating, poster_url) VALUES (..)]
    followed by [commit].  Binding the parameters comes first: a year that
    does not fit the INTEGER column makes the driver raise [OverflowError],
    which is no DBAPI error.  Then the UNIQUE index rejects a title already
    there. *)
Definition execute_insert (eng : engine) (t : table) (r : row)
  : py_result table :=
  match eng with
  | Failing e => Raised (DBAPIError e)
  | Healthy =>
      if negb (in_int64 (row_year r)) then Raised OverflowError
      else if has_title t (row_title r)
      then Raised (DBAPIError
                     (IntegrityError "UNIQUE constraint failed: movies.title"))
      else Returned (t ++ [r])%list
  end.

(** [DELETE FROM movies WHERE title = :title] followed by [commit];
    the second component is [result.rowcount]. *)
Definition execute_delete (eng : engine) (t : table) (title : string)
  : sql_result (table * nat) :=
  match eng with
  | Failing e => SqlError e
  | Healthy =>
      SqlOk (filter (fun r => negb (String.eqb (row_title r) title)) t,
             List.length (filter (fun r => String.eqb (row_title r) title) t))
  end.

Definition set_rating (rating : Q) (r : row) : row :=
  mk_row (row_title r) (row_year r) rating (row_poster_url r).

(** [UPDATE movies SET rating = :rating WHERE title = :title] followed by
    [commit]; [rowcount] counts the rows the WHERE clause matched. *)
Definition execute_update (eng : engine) (t : table) (title : string)
  (rating : Q) : sql_result (table * nat) :=
  match eng with
  | Failing e => SqlError e
  | Healthy =>
      SqlOk (map (fun r => if String.eqb (row_title r) title
                           then set_rating rating r else r) t,
             List.length (filter (fun r => String.eqb (row_title r) title) t))
  end.

(** The dict comprehension of [list_movies]. *)
Definition dict_of_rows (rows : list row) : movie_dict :=
  fold_left
    (fun d r =>
       dict_setitem d (row_title r)
         (mk_info (row_year r) (row_rating r) (row_poster_url r)))
    rows [].

(** What a storage function hands back: its Python outcome, the lines it
    printed and the table it leaves behind. *)
Record effect (A : Type) : Type := mk_effect {
  outcome : py_result A;
  printed : list string;
  stored : table
}.
Arguments mk_effect {A} _ _ _.
Arguments outcome {A} _.
Arguments printed {A} _.
Arguments stored {A} _.

Definition list_movies (eng : engine) (t : table) : effect movie_dict :=
  match execute_select eng t with
  | SqlOk movies => mk_effect (Returned (dict_of_rows movies)) [] t
  | SqlError (OperationalError m) =>
      mk_effect (Returned []) ["Database error: " ++ m] t
  | SqlError e => mk_effect (Raised (DBAPIError e)) [] t
  end.

Definition add_movie (eng : engine) (title : string) (year : Z) (rating : Q)
  (poster_url : string) (t : table) : effect unit :=
  match execute_insert eng t (mk_row title year rating poster_url) with
  | Returned t' =>
      mk_effect (Returned tt) ["Movie '" ++ title ++ "' added successfully."] t'
  | Raised (DBAPIError (IntegrityError _)) =>
      mk_effect (Returned tt) ["Movie '" ++ title ++ "' already exists."] t
  | Raised (DBAPIError (OperationalError m)) =>
      mk_effect (Returned tt) ["Database error: " ++ m] t
  | Raised e => mk_effect (Raised e) [] t
  end.

Definition delete_movie (eng : engine) (title : string) (t : table)
  : effect unit :=
  match execute_delete eng t title with
  | SqlOk (t', rowcount) =>
      if (0 <? rowcount)%nat
      then mk_effect (Returned tt)
             ["Movie '" ++ title ++ "' deleted successfully."] t'
      else mk_effect (Returned tt) ["Movie '" ++ title ++ "' not found."] t'
  | SqlError (OperationalError m) =>
      mk_effect (Returned tt) ["Database error: " ++ m] t
  | SqlError e => mk_effect (Raised (DBAPIError e)) [] t
  end.

Definition update_movie (eng : engine) (title : string) (rating : Q)
  (t : table) : effect unit :=
  match execute_update eng t title rating with
  | SqlOk (t', rowcount) =>
      if (0 <? rowcount)%nat
      then mk_effect (Returned tt)
             ["Movie '" ++ title ++ "' updated successfully."] t'
      else mk_effect (Returned tt) ["Movie '" ++ title ++ "' not found."] t'
  | SqlError (OperationalError m) =>
      mk_effect (Returned tt) ["Database error: " ++ m] t
  | SqlError e => mk_effect (Raised (DBAPIError e)) [] t
  end.

(** The reports of the error taxonomy, as the lines above print them. *)
Definition reports_added (title : string) : list string :=
  ["Movie '" ++ title ++ "' added successfully."].
Definition reports_DuplicateKey (title : string) : list string :=
  ["Movie '" ++ title ++ "' already exists."].
Definition reports_deleted (title : string) : list string :=
  ["Movie '" ++ title ++ "' deleted successfully."].
Definition reports_updated (title : string) : list string :=
  ["Movie '" ++ title ++ "' updated successfully."].
Definition reports_NotFound (title : string) : list string :=
  ["Movie '" ++ title ++ "' not found."].
Definition reports_StorageUnavailable (m : string) : list string :=
  ["Database error: " ++ m].

End storage.

(** ** A monad for the catalogue: table state, printed lines, exceptions *)

Definition M (A : Type) : Type := storage.table -> storage.effect A.

Definition ret {A : Type} (a : A) : M A :=
  fun t => storage.mk_effect (Returned a) [] t.

Definition bind {A B : Type} (m : M A) (k : A -> M B) : M B :=
  fun t =>
    let r := m t in
    match storage.outcome r with
    | Raised e => storage.mk_effect (Raised e) (storage.printed r) (storage.stored r)
    | Returned a =>
        let r' := k a (storage.stored r) in
        storage.mk_effect (storage.outcome r')
          (storage.printed r ++ storage.printed r')%list (storage.stored r')
    end.

Definition print (line : string) : M unit :=
  fun t => storage.mk_effect (Returned tt) [line] t.

Definition raise {A : Type} (e : exn) : M A :=
  fun t => storage.mk_effect (Raised e) [] t.

Notation "x <- m ;; k" := (bind m (fun x => k))
  (at level 61, m at next level, right associativity).
Notation "m ;;; k" := (bind m (fun _ => k))
  (at level 61, right associativity).

(** [for x in l: body(x)] *)
Fixpoint for_each {A : Type} (l : list A) (body : A -> M unit) : M unit :=
  match l with
  | [] => ret tt
  | x :: l' => body x ;;; for_each l' body
  end.

(** ** Python built-ins used by [movies.py] *)

Definition LF : string := String (ascii_of_nat 10) "".
Definition ESC : string := String (ascii_of_nat 27) "".

(** [str(n)] for an [int]. *)
Definition str_int (n : Z) : string := NilZero.string_of_int (Z.to_int n).

(** [c * n] for a one-character string. *)
Fixpoint str_repeat (c : string) (n : nat) : string :=
  match n with
  | O => ""
  | S n' => c ++ str_repeat c n'
  end.

(** [str.lower] on one code point below 256: A-Z and the Latin-1 capitals
    (all of 0xC0-0xDE but the multiplication sign 0xD7) move up by 32. *)
Definition lower_char (c : ascii) : ascii :=
  let n := nat_of_ascii c in
  if ((65 <=? n) && (n <=? 90)
      || (192 <=? n) && (n <=? 222) && negb (n =? 215))%nat
  then ascii_of_nat (n + 32)
  else c.

Fixpoint py_lower (s : string) : string :=
  match s with
  | EmptyString => EmptyString
  | String c s' => String (lower_char c) (py_lower s')
  end.

(** [str.isspace] on one code point below 256. *)
Definition is_space (c : ascii) : bool :=
  let n := nat_of_ascii c in
  ((9 <=? n) && (n <=? 13) || (28 <=? n) && (n <=? 32)
   || (n =? 133) || (n =? 160))%nat.

Fixpoint py_lstrip (s : string) : string :=
  match s with
  | EmptyString => EmptyString
  | String c s' => if is_space c then py_lstrip s' else s
  end.

Fixpoint py_rstrip (s : string) : string :=
  match s with
  | EmptyString => EmptyString
  | String c s' =>
      match py_rstrip s' with
      | EmptyString => if is_space c then EmptyString else String c EmptyString
      | r => String c r
      end
  end.

(** [s.strip()] *)
Definition py_strip (s : string) : string := py_rstrip (py_lstrip s).

(** [q in s] on strings: [q] starts at some position of [s]. *)
Fixpoint py_in (q s : string) : bool :=
  prefix q s ||
  match s with
  | EmptyString => false
  | String _ s' => py_in q s'
  end.

(** [s.replace(old, new)]: every occurrence of [old], leftmost first, none
    overlapping.  [skip] counts the characters of a match still to drop. *)
Fixpoint replace_from (old new s : string) (skip : nat) : string :=
  match s with
  | EmptyString => EmptyString
  | String c s' =>
      match skip with
      | S k => replace_from old new s' k
      | O =>
          if prefix old s
          then new ++ replace_from old new s' (String.length old - 1)
          else String c (replace_from old new s' 0)
      end
  end.

(** With an empty [old] Python puts [new] around every character. *)
Fixpoint interleave (new s : string) : string :=
  match s with
  | EmptyString => new
  | String c s' => new ++ String c (interleave new s')
  end.

Definition py_replace (s old new : string) : string :=
  match old with
  | EmptyString => interleave new s
  | _ => replace_from old new s 0
  end.

(** [a < b] on floats. *)
Definition Qlt_bool (a b : Q) : bool := negb (Qle_bool b a).

(** [max(first :: rest, key=key)]: a later item replaces the current one
    only when its key is strictly greater. *)
Fixpoint py_max_by {A : Type} (key : A -> Q) (best : A) (rest : list A) : A :=
  match rest with
  | [] => best
  | x :: rest' =>
      if Qlt_bool (key best) (key x) then py_max_by key x rest'
      else py_max_by key best rest'
  end.

(** [min(first :: rest, key=key)]: strictly smaller replaces. *)
Fixpoint py_min_by {A : Type} (key : A -> Q) (best : A) (rest : list A) : A :=
  match rest with
  | [] => best
  | x :: rest' =>
      if Qlt_bool (key x) (key best) then py_min_by key x rest'
      else py_min_by key best rest'
  end.

(** A Python [float] that is computed: a binary64 value, which may be an
    infinity or NaN. *)
Definition py_float : Type := spec_float.

(** The rational a finite float stands for: sign, mantissa and exponent
    give [m * 2 ^ e], negated when the sign is set. *)
Definition float_value (s : bool) (m : positive) (e : Z) : Q :=
  (inject_Z (if s then Zneg m else Zpos m) * Qpower 2 e)%Q.

(** [float(n)] for the [int] that [len] returns. *)
Definition float_of_len (n : nat) : py_float :=
  binary_normalize 53 1024 (Z.of_nat n) 0 false.

(** [a / n] with [n = len(..)]: true division of a float by an [int],
    which raises on 0 and otherwise is the IEEE 754 quotient. *)
Definition py_truediv (a : py_float) (n : nat) : py_result py_float :=
  match n with
  | O => Raised ZeroDivisionError
  | S _ => Returned (SFdiv 53 1024 a (float_of_len n))
  end.

(** [sorted(l, key=key, reverse=True)].  Python's sort is stable, also with
    [reverse=True]; on keys that are totally ordered every stable sort
    returns the same list, here the one built by insertion: an item goes in
    front of the first item whose key is not strictly greater. *)
Fixpoint insert_desc {A : Type} (key : A -> Q) (x : A) (l : list A) : list A :=
  match l with
  | [] => [x]
  | y :: l' =>
      if Qlt_bool (key x) (key y) then y :: insert_desc key x l'
      else x :: l
  end.

Fixpoint py_sorted_reverse {A : Type} (key : A -> Q) (l : list A) : list A :=
  match l with
  | [] => []
  | x :: l' => insert_desc key x (py_sorted_reverse key l')
  end.

(** What the Python runtime does with floats as text: [str(x)], the
    [.1f] format of a finite float, and the parsers [float(s)] and [int(s)]
    ([None] where Python raises [ValueError]); and how it sums floats:
    [sum] adds from left to right, each step rounded, in CPython up to
    3.11 and compensates the rounding from 3.12 on.  [float_of_str] reads
    the finite floats; the spellings of the infinities and of NaN, which
    [float] reads as well, have no value in [Q] and are not covered. *)
Class PyRuntime : Type := {
  str_float : Q -> string;
  format_1f : Q -> string;
  float_of_str : string -> option Q;
  int_of_str : string -> option Z;
  float_sum : list Q -> py_float
}.

(** [sum(l)] on a list of floats. *)
Definition py_sum {RT : PyRuntime} (l : list Q) : py_float := float_sum l.

(** [f"{x:.1f}"] for a computed float. *)
Definition format_1f_float {RT : PyRuntime} (x : py_float) : string :=
  match x with
  | S754_finite s m e => format_1f (float_value s m e)
  | S754_zero false => format_1f 0
  | S754_zero true => "-0.0"
  | S754_infinity false => "inf"
  | S754_infinity true => "-inf"
  | S754_nan => "nan"
  end.

(** ** The catalogue service ([movies.py]) *)

Module movies.

Section Catalogue.

Context {RT : PyRuntime}.

(** Process environment of one call: the state of the engine, the value
    of [OMDB_API_KEY], and the two files under [_static]. *)
Variable eng : storage.engine.

Definition THEME : string := ESC ++ "[0;92;40m".
Definition RESET : string := ESC ++ "[0m".
Definition RED : string := ESC ++ "[91m".
Definition GREEN : string := ESC ++ "[92m".

Definition MIN_YEAR : Z := 1888.
Definition MAX_YEAR : Z := 2026.
Definition MIN_RATING : Q := 0.
Definition MAX_RATING : Q := 10.

Definition len (s : string) : Z := Z.of_nat (String.length s).

Definition format_movie_line (title : string) (info : movie_info) : string :=
  let width := 45%Z in
  let label := " " ++ title ++ " (" ++ str_int (year info) ++ ")" in
  let value := " " ++ str_float (rating info) in
  let dots := (width - len label - len value)%Z in
  let dots := if (dots <? 3)%Z then 3%Z else dots in
  label ++ " " ++ str_repeat "." (Z.to_nat dots) ++ value.

(** The answer of the metadata service: [requests.get(..)] followed by
    [response.json()] either raises a [RequestException] or yields a JSON
    object, here with string values. *)
Inductive http_outcome : Type :=
| RequestException (msg : string)
| JsonObject (data : list (string * string)).

Fixpoint json_get (data : list (string * string)) (k : string)
  : option string :=
  match data with
  | [] => None
  | (k', v) :: data' => if String.eqb k' k then Some v else json_get data' k
  end.

Definition json_get_default (data : list (string * string)) (k d : string)
  : string :=
  match json_get data k with
  | Some v => v
  | None => d
  end.

(** [str(x)] for the optional string [data.get('Error')]. *)
Definition str_optional (v : option string) : string :=
  match v with
  | Some s => s
  | None => "None"
  end.

Record movie_data : Type := mk_data {
  data_title : string;
  data_year : Z;
  data_rating : Q;
  data_poster_url : string
}.

Definition fetch_movie_data (API_KEY : string) (http : string -> http_outcome)
  (title : string) : M (option movie_data) :=
  if String.eqb API_KEY ""
  then print (RED ++ "  API key not found. Check your .env file." ++ RESET) ;;;
       ret None
  else
    match http title with
    | RequestException e =>
        print (RED ++ "  API error: " ++ e ++ RESET) ;;; ret None
    | JsonObject data =>
        match json_get data "Response" with
        | Some "True" =>
            match int_of_str (substring 0 4 (json_get_default data "Year" "0")) with
            | None => raise ValueError
            | Some y =>
                match float_of_str (json_get_default data "imdbRating" "0") with
                | None => raise ValueError
                | Some r =>
                    ret (Some (mk_data (json_get_default data "Title" title) y r
                                 (json_get_default data "Poster" "")))
                end
            end
        | _ =>
            print (RED ++ "  Movie not found: "
                   ++ str_optional (json_get data "Error") ++ RESET) ;;;
            ret None
        end
    end.

(** The prompts read [input()] lines from [inputs]; at the end of the
    input Python raises [EOFError].  Each returns the lines left. *)
Fixpoint get_valid_rating (inputs : list string) : M (Q * list string) :=
  match inputs with
  | [] => raise EOFError
  | line :: rest =>
      match float_of_str line with
      | Some rating =>
          if Qle_bool MIN_RATING rating && Qle_bool rating MAX_RATING
          then ret (rating, rest)
          else print (RED ++ "  Rating must be between 0 and 10." ++ RESET) ;;;
               get_valid_rating rest
      | None =>
          print (RED ++ "  Please enter a valid number." ++ RESET) ;;;
          get_valid_rating rest
      end
  end.

Fixpoint get_valid_year (inputs : list string) : M (Z * list string) :=
  match inputs with
  | [] => raise EOFError
  | line :: rest =>
      match int_of_str line with
      | Some year =>
          if ((MIN_YEAR <=? year) && (year <=? MAX_YEAR))%Z
          then ret (year, rest)
          else print (RED ++ "  Year must be between " ++ str_int MIN_YEAR
                      ++ " and " ++ str_int MAX_YEAR ++ "." ++ RESET) ;;;
               get_valid_year rest
      | None =>
          print (RED ++ "  Please enter a valid year." ++ RESET) ;;;
          get_valid_year rest
      end
  end.

Definition list_movies : M unit :=
  movies <- storage.list_movies eng ;;
  match movies with
  | [] => print (LF ++ RED ++ "  No movies in database yet." ++ RESET)
  | _ =>
      print (LF ++ THEME ++ "  " ++ str_int (Z.of_nat (List.length movies))
             ++ " movies in total:" ++ RESET ++ LF) ;;;
      for_each movies (fun '(title, info) =>
        print (THEME ++ format_movie_line title info ++ RESET))
  end.

(** [inputs] are the lines typed at the prompts, the movie name first. *)
Definition add_movies (API_KEY : string) (http : string -> http_outcome)
  (inputs : list string) : M unit :=
  print (LF ++ THEME ++ "  ADD MOVIE" ++ RESET) ;;;
  match inputs with
  | [] => raise EOFError
  | line :: inputs =>
      let title := py_strip line in
      if String.eqb title ""
      then print (RED ++ "  Title cannot be empty." ++ RESET)
      else
        print (LF ++ "  Searching OMDb for '" ++ title ++ "'...") ;;;
        data <- fetch_movie_data API_KEY http title ;;
        match data with
        | Some data =>
            print (LF ++ "  Found: " ++ data_title data ++ " ("
                   ++ str_int (data_year data) ++ ") - Rating: "
                   ++ str_float (data_rating data)) ;;;
            storage.add_movie eng (data_title data) (data_year data)
              (data_rating data) (data_poster_url data)
        | None =>
            print (LF ++ RED ++ "  Could not fetch from API. Enter manually:"
                   ++ RESET) ;;;
            yr <- get_valid_year inputs ;;
            rr <- get_valid_rating (snd yr) ;;
            storage.add_movie eng title (fst yr) (fst rr) ""
        end
  end.

Definition del_movies (inputs : list string) : M unit :=
  print (LF ++ THEME ++ "  DELETE MOVIE" ++ RESET) ;;;
  match inputs with
  | [] => raise EOFError
  | line :: _ =>
      let title := py_strip line in
      if String.eqb title ""
      then print (RED ++ "  Title cannot be empty." ++ RESET)
      else storage.delete_movie eng title
  end.

Definition update_movies (inputs : list string) : M unit :=
  print (LF ++ THEME ++ "  UPDATE MOVIE" ++ RESET) ;;;
  match inputs with
  | [] => raise EOFError
  | line :: inputs =>
      let title := py_strip line in
      if String.eqb title ""
      then print (RED ++ "  Title cannot be empty." ++ RESET)
      else
        rr <- get_valid_rating inputs ;;
        storage.update_movie eng title (fst rr)
  end.

(** The sort and comparison key [lambda x: x[1]["rating"]]. *)
Definition rating_key (x : string * movie_info) : Q := rating (snd x).

Definition stats_movies : M unit :=
  movies <- storage.list_movies eng ;;
  match movies with
  | [] => print (LF ++ RED ++ "  No movies to show stats for." ++ RESET)
  | first :: rest =>
      let ratings := map (fun info => rating info) (map snd movies) in
      let best := py_max_by rating_key first rest in
      let worst := py_min_by rating_key first rest in
      match py_truediv (py_sum ratings) (List.length ratings) with
      | Raised e => raise e
      | Returned avg =>
          print (LF ++ THEME ++ "  STATISTICS" ++ RESET) ;;;
          print ("  Average rating: " ++ format_1f_float avg) ;;;
          print ("  Best movie: " ++ fst best ++ " ("
                 ++ str_float (rating (snd best)) ++ ")") ;;;
          print ("  Worst movie: " ++ fst worst ++ " ("
                 ++ str_float (rating (snd worst)) ++ ")")
      end
  end.

(** The loop of [search_movie]; it returns the flag [found]. *)
Fixpoint search_loop (query : string) (movies : movie_dict) (found : bool)
  : M bool :=
  match movies with
  | [] => ret found
  | (title, info) :: movies' =>
      if py_in query (py_lower title)
      then print (GREEN ++ format_movie_line title info ++ RESET) ;;;
           search_loop query movies' true
      else search_loop query movies' found
  end.

(** [line] is what the user types at the prompt. *)
Definition search_movie (line : string) : M unit :=
  let query := py_lower (py_strip line) in
  if String.eqb query "" then ret tt
  else
    movies <- storage.list_movies eng ;;
    found <- search_loop query movies false ;;
    if found then ret tt
    else print (RED ++ "  No movies found matching '" ++ query ++ "'." ++ RESET).

Definition movies_sorted_by_rating : M unit :=
  movies <- storage.list_movies eng ;;
  match movies with
  | [] => print (LF ++ RED ++ "  No movies to sort." ++ RESET)
  | _ =>
      let sorted_movies := py_sorted_reverse rating_key movies in
      print (LF ++ THEME ++ "  MOVIES SORTED BY RATING:" ++ RESET ++ LF) ;;;
      for_each sorted_movies (fun '(title, info) =>
        print (THEME ++ format_movie_line title info ++ RESET))
  end.

(** One turn of the loop that builds [movie_grid]. *)
Definition movie_grid_step (movie_grid : string) (x : string * movie_info)
  : string :=
  let '(title, info) := x in
  let poster := poster_url info in
  let movie_grid := movie_grid ++ "        <li>" ++ LF in
  let movie_grid := movie_grid ++ "            <div class='movie'>" ++ LF in
  let movie_grid :=
    if negb (String.eqb poster "") && negb (String.eqb poster "N/A")
    then movie_grid ++ "                <img class='movie-poster' src='"
         ++ poster ++ "' alt='" ++ title ++ "'/>" ++ LF
    else movie_grid in
  let movie_grid := movie_grid ++ "                <div class='movie-title'>"
                    ++ title ++ "</div>" ++ LF in
  let movie_grid := movie_grid ++ "                <div class='movie-year'>"
                    ++ str_int (year info) ++ "</div>" ++ LF in
  let movie_grid := movie_grid ++ "                <div class='movie-rating'>"
                    ++ "Rating: " ++ str_float (rating info) ++ "</div>" ++ LF in
  let movie_grid := movie_grid ++ "            </div>" ++ LF in
  movie_grid ++ "        </li>" ++ LF.

Definition TEMPLATE_TITLE : string := "__TEMPLATE_TITLE__".
Definition TEMPLATE_MOVIE_GRID : string := "__TEMPLATE_MOVIE_GRID__".

(** The [output] of [generate_website] for a template that was read. *)
Definition render (template : string) (movies : movie_dict) : string :=
  let movie_grid := fold_left movie_grid_step movies "" in
  let output := py_replace template TEMPLATE_TITLE "My Movie App" in
  py_replace output TEMPLATE_MOVIE_GRID movie_grid.

(** [template_file] is the content of [_static/index_template.html], or
    [None] when the file is missing.  The Python function returns nothing;
    the value here is what it writes to [_static/index.html], if anything. *)
Definition generate_website (template_file : option string)
  : M (option string) :=
  movies <- storage.list_movies eng ;;
  match template_file with
  | None =>
      print (RED ++ "  Template not found: " ++ "_static/index_template.html"
             ++ RESET) ;;;
      ret None
  | Some template =>
      let output := render template movies in
      print (LF ++ GREEN ++ "  Website was generated successfully." ++ RESET) ;;;
      print ("  Open " ++ "_static/index.html" ++ " to view it.") ;;;
      ret (Some output)
  end.

End Catalogue.

End movies.

(** ** A runtime for the examples

    Integers are read in plain decimal, a float is read from an integer
    literal, and [str] writes a float with the one decimal digit that the
    catalogue's ratings have.  The [.1f] format rounds the exact value to
    the nearest tenth, a tie to the even one.  Sums are binary64 sums. *)

Definition sample_int_of_str (s : string) : option Z :=
  option_map Z.of_int (NilZero.int_of_string s).

Definition sample_str_float (q : Q) : string :=
  let tenths := (Qnum q * 10 / Zpos (Qden q))%Z in
  str_int (tenths / 10) ++ "." ++ str_int (tenths mod 10).

Definition sample_format_1f (q : Q) : string :=
  let n := (Z.abs (Qnum q) * 10)%Z in
  let d := Zpos (Qden q) in
  let lo := (n / d)%Z in
  let twice := (2 * (n mod d))%Z in
  let tenths :=
    if (twice <? d)%Z then lo
    else if (d <? twice)%Z then (lo + 1)%Z
    else if Z.even lo then lo else (lo + 1)%Z in
  (if (Qnum q <? 0)%Z then "-" else "")
  ++ str_int (tenths / 10) ++ "." ++ str_int (tenths mod 10).

(** The binary64 float nearest to a rational with numerator and
    denominator below [2 ^ 53]: the float itself when the rational is
    one. *)
Definition binary64_of_Q (q : Q) : py_float :=
  SFdiv 53 1024 (binary_normalize 53 1024 (Qnum q) 0 false)
    (binary_normalize 53 1024 (Zpos (Qden q)) 0 false).

(** [sum] as CPython up to 3.11 computes it: binary64 additions from left
    to right, starting from 0. *)
Definition binary64_sum (l : list Q) : py_float :=
  fold_left (fun acc q => SFadd 53 1024 acc (binary64_of_Q q)) l
    (S754_zero false).

Definition sample_runtime : PyRuntime := {|
  str_float := sample_str_float;
  format_1f := sample_format_1f;
  float_of_str := fun s => option_map inject_Z (sample_int_of_str s);
  int_of_str := sample_int_of_str;
  float_sum := binary64_sum
|}.

(** ** Vocabulary of the statements *)

(** The dict entry a row is listed as. *)
Definition entry_of_row (r : storage.row) : string * movie_info :=
  (storage.row_title r,
   mk_info (storage.row_year r) (storage.row_rating r)
     (storage.row_poster_url r)).

(** The rows of a table that carry a given title. *)
Definition rows_titled (title : string) (t : storage.table) : list storage.row :=
  filter (fun r => String.eqb (storage.row_title r) title) t.

(** A computation that leaves the table as it found it. *)
Definition read_only {A : Type} (m : M A) : Prop :=
  forall t, storage.stored (m t) = t.

(** [m] is the first item of [l] with the largest key: everything before
    it is strictly smaller, nothing after it is larger. *)
Definition first_maximum {A : Type} (key : A -> Q) (m : A) (l : list A)
  : Prop :=
  exists l1 l2,
    l = (l1 ++ m :: l2)%list /\
    (forall x, In x l1 -> (key x < key m)%Q) /\
    (forall x, In x l2 -> (key x <= key m)%Q).

(** [m] is the first item of [l] with the smallest key. *)
Definition first_minimum {A : Type} (key : A -> Q) (m : A) (l : list A)
  : Prop :=
  exists l1 l2,
    l = (l1 ++ m :: l2)%list /\
    (forall x, In x l1 -> (key m < key x)%Q) /\
    (forall x, In x l2 -> (key m <= key x)%Q).


(** Highest key first. *)
Definition descending {A : Type} (key : A -> Q) (l : list A) : Prop :=
  StronglySorted (fun a b => (key b <= key a)%Q) l.

(** The items of [l] whose key equals [q], in the order of [l]. *)
Definition tied {A : Type} (key : A -> Q) (q : Q) (l : list A) : list A :=
  filter (fun x => Qeq_bool (key x) q) l.

(** [s] contains [q]: some characters, then [q], then the rest. *)
Definition contains (q s : string) : Prop :=
  exists pre post, s = pre ++ q ++ post.

(** A text without the character [_]. *)
Fixpoint no_underscore (s : string) : bool :=
  match s with
  | EmptyString => true
  | String c s' => negb (Ascii.eqb c "_") && no_underscore s'
  end.

(** The last character of a text is [_]. *)
Fixpoint ends_with_underscore (s : string) : bool :=
  match s with
  | EmptyString => false
  | String c EmptyString => Ascii.eqb c "_"
  | String _ s' => ends_with_underscore s'
  end.

(** The number of positions of [a] at which [tok] starts in the text
    [a ++ s]. *)
Fixpoint starts (tok a s : string) : nat :=
  match a with
  | EmptyString => 0
  | String _ a' => (if prefix tok (a ++ s) then 1 else 0) + starts tok a' s
  end.



(** The records a query selects: those whose lower-cased title has the
    query inside. *)
Definition matches (query : string) (items : movie_dict) : movie_dict :=
  filter (fun x => py_in query (py_lower (fst x))) items.

(** The poster line of a record: none when the poster is empty or the
    "N/A" sentinel. *)
Definition poster_image (x : string * movie_info) : string :=
  if String.eqb (poster_url (snd x)) "" || String.eqb (poster_url (snd x)) "N/A"
  then ""
  else "                <img class='movie-poster' src='" ++ poster_url (snd x)
       ++ "' alt='" ++ fst x ++ "'/>" ++ LF.

Section Lines.

Context {RT : PyRuntime}.

(** The line [movies_sorted_by_rating] prints for one record. *)
Definition sorted_line (x : string * movie_info) : string :=
  movies.THEME ++ movies.format_movie_line (fst x) (snd x) ++ movies.RESET.

(** The line [search_movie] prints for one match. *)
Definition match_line (x : string * movie_info) : string :=
  movies.GREEN ++ movies.format_movie_line (fst x) (snd x) ++ movies.RESET.

(** The markup block of one record. *)
Definition movie_block (x : string * movie_info) : string :=
  "        <li>" ++ LF
  ++ "            <div class='movie'>" ++ LF
  ++ poster_image x
  ++ "                <div class='movie-title'>" ++ fst x ++ "</div>" ++ LF
  ++ "                <div class='movie-year'>" ++ str_int (year (snd x))
  ++ "</div>" ++ LF
  ++ "                <div class='movie-rating'>Rating: "
  ++ str_float (rating (snd x)) ++ "</div>" ++ LF
  ++ "            </div>" ++ LF
  ++ "        </li>" ++ LF.

(** The blocks of all records, one after the other. *)
Definition blocks (items : movie_dict) : string :=
  fold_right (fun x rest => movie_block x ++ rest) "" items.

End Lines.

(** No placeholder token is left in [s]. *)
Definition token_free (s : string) : bool :=
  negb (py_in movies.TEMPLATE_TITLE s)
  && negb (py_in movies.TEMPLATE_MOVIE_GRID s).

(** The tables the program can reach: it starts from the empty table that
    [create_table] makes and only ever calls the three writers, whatever
    the engine does on each call. *)
Inductive reachable : storage.table -> Prop :=
| reach_empty : reachable []
| reach_add eng title y r p t :
    reachable t ->
    reachable (storage.stored (storage.add_movie eng title y r p t))
| reach_delete eng title t :
    reachable t ->
    reachable (storage.stored (storage.delete_movie eng title t))
| reach_update eng title q t :
    reachable t ->
    reachable (storage.stored (storage.update_movie eng title q t)).

Section Prompts.

Context {RT : PyRuntime}.

(** What the rating prompt makes of one typed line: the rating it
    returns, or nothing when the line is not a number or is outside
    [MIN_RATING..MAX_RATING]. *)
Definition rating_accepted (line : string) : option Q :=
  match float_of_str line with
  | Some x =>
      if Qle_bool movies.MIN_RATING x && Qle_bool x movies.MAX_RATING
      then Some x else None
  | None => None
  end.

(** The complaint the rating prompt prints for a line it turns down. *)
Definition rating_complaint (line : string) : string :=
  match float_of_str line with
  | Some _ => movies.RED ++ "  Rating must be between 0 and 10." ++ movies.RESET
  | None => movies.RED ++ "  Please enter a valid number." ++ movies.RESET
  end.

(** The same for the year prompt. *)
Definition year_accepted (line : string) : option Z :=
  match int_of_str line with
  | Some y =>
      if ((movies.MIN_YEAR <=? y) && (y <=? movies.MAX_YEAR))%Z
      then Some y else None
  | None => None
  end.

Definition year_complaint (line : string) : string :=
  match int_of_str line with
  | Some _ => movies.RED ++ "  Year must be between " ++ str_int movies.MIN_YEAR
              ++ " and " ++ str_int movies.MAX_YEAR ++ "." ++ movies.RESET
  | None => movies.RED ++ "  Please enter a valid year." ++ movies.RESET
  end.

End Prompts.

(** The ways the metadata lookup comes back empty-handed: no API key, a
    request that raises, or an answer whose "Response" is not "True". *)
Definition lookup_fails (API_KEY : string)
  (http : string -> movies.http_outcome) (title : string) : Prop :=
  API_KEY = "" \/
  (exists m, http title = movies.RequestException m) \/
  (exists data, http title = movies.JsonObject data /\
                movies.json_get data "Response" <> Some "True").

Section ListingLine.

Context {RT : PyRuntime}.

(** The line the listing prints for one record. *)
Definition listing_line (x : string * movie_info) : string :=
  movies.THEME ++ movies.format_movie_line (fst x) (snd x) ++ movies.RESET.

End ListingLine.

(** * Facts *)

(** ** Tables and dicts *)

Lemma has_title_In (t : storage.table) (title : string) :
  storage.has_title t title = true <-> In title (storage.titles t).
Proof.
  unfold storage.has_title, storage.titles.
  rewrite existsb_exists, in_map_iff.
  split; intros [r [H1 H2]]; exists r.
  - apply String.eqb_eq in H2. auto.
  - split; [assumption|]. apply String.eqb_eq. assumption.
Qed.

Lemma has_title_not_In (t : storage.table) (title : string) :
  storage.has_title t title = false <-> ~ In title (storage.titles t).
Proof.
  rewrite <- has_title_In.
  destruct (storage.has_title t title); split; intros H; congruence.
Qed.

Lemma dict_setitem_fresh (d : movie_dict) (k : string) (v : movie_info) :
  ~ In k (map fst d) -> dict_setitem d k v = (d ++ [(k, v)])%list.
Proof.
  induction d as [|[k' v'] d IH]; simpl; intros H.
  - reflexivity.
  - destruct (String.eqb_spec k' k) as [E|E].
    + exfalso. apply H. left. assumption.
    + rewrite IH; [reflexivity|]. intros Hin. apply H. right. assumption.
Qed.

Lemma map_fst_entries (rows : list storage.row) :
  map fst (map entry_of_row rows) = storage.titles rows.
Proof.
  unfold storage.titles. rewrite map_map. reflexivity.
Qed.

Lemma fold_setitem_unique (rows : list storage.row) (acc : movie_dict) :
  NoDup (map fst acc ++ storage.titles rows)%list ->
  fold_left
    (fun d r =>
       dict_setitem d (storage.row_title r)
         (mk_info (storage.row_year r) (storage.row_rating r)
            (storage.row_poster_url r)))
    rows acc
  = (acc ++ map entry_of_row rows)%list.
Proof.
  revert acc. induction rows as [|r rows IH]; intros acc H; simpl.
  - rewrite app_nil_r. reflexivity.
  - simpl in H. pose proof (NoDup_remove _ _ _ H) as [Hnd Hnotin].
    rewrite dict_setitem_fresh.
    + rewrite IH.
      * rewrite <- app_assoc. reflexivity.
      * rewrite map_app. simpl. rewrite <- app_assoc. simpl. exact H.
    + intros Hin. apply Hnotin. apply in_or_app. left. assumption.
Qed.

(** Under the UNIQUE constraint the listing is the table, row by row. *)
Lemma dict_of_rows_unique (t : storage.table) :
  storage.unique_titles t -> storage.dict_of_rows t = map entry_of_row t.
Proof.
  intros H. unfold storage.dict_of_rows.
  rewrite fold_setitem_unique; [reflexivity|]. exact H.
Qed.

Lemma dict_get_app_fresh (d : movie_dict) (k : string) (v : movie_info) :
  ~ In k (map fst d) -> dict_get (d ++ [(k, v)])%list k = Some v.
Proof.
  induction d as [|[k' v'] d IH]; simpl; intros H.
  - rewrite String.eqb_refl. reflexivity.
  - destruct (String.eqb_spec k' k) as [E|E].
    + exfalso. apply H. left. assumption.
    + apply IH. intros Hin. apply H. right. assumption.
Qed.

Lemma dict_get_entries (t : storage.table) (r : storage.row) :
  storage.unique_titles t -> In r t ->
  dict_get (map entry_of_row t) (storage.row_title r) = Some (snd (entry_of_row r)).
Proof.
  unfold storage.unique_titles, storage.titles.
  induction t as [|r' t IH]; simpl; intros Hnd Hin; [contradiction|].
  inversion Hnd as [|? ? Hnotin Hnd']; subst.
  destruct Hin as [->|Hin].
  - rewrite String.eqb_refl. reflexivity.
  - destruct (String.eqb_spec (storage.row_title r') (storage.row_title r)) as [E|E].
    + exfalso. apply Hnotin. rewrite E. apply in_map. assumption.
    + apply IH; assumption.
Qed.

Lemma rows_titled_absent (title : string) (t : storage.table) :
  ~ In title (storage.titles t) -> rows_titled title t = [].
Proof.
  unfold rows_titled, storage.titles.
  induction t as [|r t IH]; simpl; intros H; [reflexivity|].
  destruct (String.eqb_spec (storage.row_title r) title) as [E|E].
  - exfalso. apply H. left. assumption.
  - apply IH. intros Hin. apply H. right. assumption.
Qed.

Lemma keep_others_absent (title : string) (t : storage.table) :
  ~ In title (storage.titles t) ->
  filter (fun r => negb (String.eqb (storage.row_title r) title)) t = t.
Proof.
  unfold storage.titles.
  induction t as [|r t IH]; simpl; intros H; [reflexivity|].
  destruct (String.eqb_spec (storage.row_title r) title) as [E|E]; simpl.
  - exfalso. apply H. left. assumption.
  - f_equal. apply IH. intros Hin. apply H. right. assumption.
Qed.


(** A table with unique titles splits around the one row of a title. *)
Lemma unique_split (title : string) (t : storage.table) :
  storage.unique_titles t -> In title (storage.titles t) ->
  exists l1 r l2,
    t = (l1 ++ r :: l2)%list /\ storage.row_title r = title /\
    ~ In title (storage.titles l1) /\ ~ In title (storage.titles l2).
Proof.
  unfold storage.unique_titles, storage.titles.
  induction t as [|r t IH]; simpl; intros Hnd Hin; [contradiction|].
  inversion Hnd as [|? ? Hnotin Hnd']; subst.
  destruct Hin as [E|Hin].
  - exists [], r, t. simpl. repeat split; auto. rewrite <- E. assumption.
  - destruct (IH Hnd' Hin) as (l1 & r0 & l2 & Ht & Hr & H1 & H2).
    exists (r :: l1), r0, l2. simpl. repeat split; auto.
    + rewrite Ht. reflexivity.
    + intros [E|H]; [|auto]. apply Hnotin. rewrite E. assumption.
Qed.

Lemma rows_titled_split (title : string) (l1 l2 : storage.table) (r : storage.row) :
  storage.row_title r = title ->
  ~ In title (storage.titles l1) -> ~ In title (storage.titles l2) ->
  rows_titled title (l1 ++ r :: l2)%list = [r].
Proof.
  intros Hr H1 H2. unfold rows_titled. rewrite filter_app. simpl.
  fold (rows_titled title l1). fold (rows_titled title l2).
  rewrite (rows_titled_absent _ _ H1), (rows_titled_absent _ _ H2).
  rewrite Hr, String.eqb_refl. reflexivity.
Qed.

(** ** The storage engine *)

Ltac unfold_storage :=
  unfold storage.add_movie, storage.delete_movie, storage.update_movie,
    storage.list_movies, storage.execute_insert, storage.execute_delete,
    storage.execute_update, storage.execute_select.

(** Closes [NoDup], [In] and [~ In] goals over explicit lists of titles
    or rows. *)
Ltac explicit_list :=
  unfold storage.unique_titles, storage.titles; simpl;
  lazymatch goal with
  | |- NoDup _ => repeat constructor; simpl; intuition discriminate
  | |- ~ _ => intuition discriminate
  | |- In _ _ => simpl; auto 12
  | |- _ \/ _ => auto 12
  end.

Lemma list_movies_healthy (t : storage.table) :
  storage.unique_titles t ->
  storage.list_movies storage.Healthy t
  = storage.mk_effect (Returned (map entry_of_row t)) [] t.
Proof.
  intros H. unfold_storage. rewrite dict_of_rows_unique by assumption.
  reflexivity.
Qed.

Lemma add_movie_fresh (t : storage.table) (title : string) (y : Z) (r : Q)
  (p : string) :
  storage.in_int64 y = true ->
  ~ In title (storage.titles t) ->
  storage.add_movie storage.Healthy title y r p t
  = storage.mk_effect (Returned tt) (storage.reports_added title)
      (t ++ [storage.mk_row title y r p])%list.
Proof.
  intros Hy H. unfold storage.add_movie, storage.execute_insert.
  cbn [storage.row_year storage.row_title].
  apply has_title_not_In in H. rewrite Hy, H. reflexivity.
Qed.

(** A year the INTEGER column cannot hold: the driver's [OverflowError]
    escapes [add_movie], before anything is printed or stored. *)
Lemma add_movie_overflow (t : storage.table) (title : string) (y : Z) (r : Q)
  (p : string) :
  storage.in_int64 y = false ->
  storage.add_movie storage.Healthy title y r p t
  = storage.mk_effect (Raised OverflowError) [] t.
Proof.
  intros Hy. unfold storage.add_movie, storage.execute_insert.
  cbn [storage.row_year storage.row_title]. rewrite Hy. reflexivity.
Qed.

Lemma add_movie_present (t : storage.table) (title : string) (y : Z) (r : Q)
  (p : string) :
  storage.in_int64 y = true ->
  In title (storage.titles t) ->
  storage.add_movie storage.Healthy title y r p t
  = storage.mk_effect (Returned tt) (storage.reports_DuplicateKey title) t.
Proof.
  intros Hy H. unfold storage.add_movie, storage.execute_insert.
  cbn [storage.row_year storage.row_title].
  apply has_title_In in H. rewrite Hy, H. reflexivity.
Qed.

Lemma unique_titles_snoc (t : storage.table) (r : storage.row) :
  storage.unique_titles t -> ~ In (storage.row_title r) (storage.titles t) ->
  storage.unique_titles (t ++ [r])%list.
Proof.
  unfold storage.unique_titles, storage.titles. intros Hnd Hnotin.
  rewrite map_app. simpl.
  apply NoDup_app; [assumption | repeat constructor; auto |].
  intros x Hx [E|[]]. subst. contradiction.
Qed.

Lemma titles_filter_sublist (f : storage.row -> bool) (t : storage.table) :
  storage.unique_titles t -> storage.unique_titles (filter f t).
Proof.
  unfold storage.unique_titles, storage.titles.
  induction t as [|r t IH]; simpl; intros Hnd; [constructor|].
  inversion Hnd as [|? ? Hnotin Hnd']; subst.
  destruct (f r); simpl; [|auto].
  constructor; [|auto].
  intros Hin. apply Hnotin. apply in_map_iff in Hin.
  destruct Hin as [r' [E Hr']]. apply filter_In in Hr'.
  rewrite <- E. apply in_map. tauto.
Qed.

Lemma titles_after_update (title : string) (q : Q) (t : storage.table) :
  storage.titles
    (map (fun r => if String.eqb (storage.row_title r) title
                   then storage.set_rating q r else r) t)
  = storage.titles t.
Proof.
  unfold storage.titles. rewrite map_map. apply map_ext.
  intros r. destruct (String.eqb (storage.row_title r) title); reflexivity.
Qed.

(** Every storage operation keeps the UNIQUE constraint, whatever the
    engine does. *)
Lemma unique_titles_preserved (eng : storage.engine) (title : string) (y : Z)
  (r q : Q) (p : string) (t : storage.table) :
  storage.unique_titles t ->
  storage.unique_titles (storage.stored (storage.add_movie eng title y r p t)) /\
  storage.unique_titles (storage.stored (storage.delete_movie eng title t)) /\
  storage.unique_titles (storage.stored (storage.update_movie eng title q t)).
Proof.
  intros Hu. destruct eng as [|[m|m|m]]; try (repeat split; exact Hu).
  split; [|split].
  - unfold storage.add_movie, storage.execute_insert.
    cbn [storage.row_year storage.row_title].
    destruct (storage.in_int64 y); cbn [negb]; [|exact Hu].
    destruct (storage.has_title t title) eqn:E; simpl; [exact Hu|].
    apply unique_titles_snoc; [exact Hu|].
    apply has_title_not_In. exact E.
  - unfold_storage.
    destruct (0 <? _)%nat; simpl; apply titles_filter_sublist; exact Hu.
  - unfold_storage.
    destruct (0 <? _)%nat; simpl; unfold storage.unique_titles;
      rewrite titles_after_update; exact Hu.
Qed.



(** C2.  For a title the table does not hold yet and a year the INTEGER
    column can hold, [add_movie] followed by [list_movies] yields the
    earlier listing with one more entry, which binds the title to exactly
    the year, rating and poster given. *)
Theorem add_then_list_round_trip
  (t : storage.table) (title : string) (y : Z) (r : Q) (p : string) :
  storage.unique_titles t ->
  ~ In title (storage.titles t) ->
  storage.in_int64 y = true ->
  let e := storage.add_movie storage.Healthy title y r p t in
  let l := storage.list_movies storage.Healthy (storage.stored e) in
  storage.outcome e = Returned tt /\
  storage.printed e = storage.reports_added title /\
  storage.outcome l
  = Returned (map entry_of_row t ++ [(title, mk_info y r p)])%list /\
  storage.printed l = [] /\
  dict_get (map entry_of_row t ++ [(title, mk_info y r p)])%list title
  = Some (mk_info y r p).
Proof.
  intros Hu Hfresh Hy e l. unfold l, e.
  rewrite add_movie_fresh by assumption.
  cbn [storage.outcome storage.printed storage.stored].
  rewrite list_movies_healthy by (apply unique_titles_snoc; assumption).
  cbn [storage.outcome storage.printed storage.stored].
  rewrite map_app. simpl. repeat split.
  apply dict_get_app_fresh. rewrite map_fst_entries. assumption.
Qed.

Lemma add_then_list_round_trip_witness :
  let t := [storage.mk_row "Alien" 1979 (85 # 10) "N/A"] in
  let e := storage.add_movie storage.Healthy "Dune" 2021 (8 # 1)
             "https://img.example/dune.jpg" t in
  let l := storage.list_movies storage.Healthy (storage.stored e) in
  storage.outcome e = Returned tt /\
  storage.printed e = ["Movie 'Dune' added successfully."] /\
  storage.outcome l
  = Returned [("Alien", mk_info 1979 (85 # 10) "N/A");
              ("Dune", mk_info 2021 (8 # 1) "https://img.example/dune.jpg")] /\
  storage.printed l = [] /\
  dict_get [("Alien", mk_info 1979 (85 # 10) "N/A");
            ("Dune", mk_info 2021 (8 # 1) "https://img.example/dune.jpg")] "Dune"
  = Some (mk_info 2021 (8 # 1) "https://img.example/dune.jpg").
Proof.
  apply (add_then_list_round_trip
           [storage.mk_row "Alien" 1979 (85 # 10) "N/A"] "Dune" 2021 (8 # 1)
           "https://img.example/dune.jpg").
  - explicit_list.
  - explicit_list.
  - reflexivity.
Defined.

(** C2, the case the claim leaves out: the year [2 ^ 63] does not fit the
    INTEGER column.  [add_movie] on a fresh title then raises
    [OverflowError] to its caller, prints no report and stores nothing, so
    the listing that follows is empty and does not hold the title. *)
Lemma add_movie_year_out_of_range :
  let e := storage.add_movie storage.Healthy "Dune" (2 ^ 63) (8 # 1) "N/A" [] in
  let l := storage.list_movies storage.Healthy (storage.stored e) in
  storage.has_title [] "Dune" = false /\
  storage.outcome e = Raised OverflowError /\
  storage.printed e = [] /\
  storage.stored e = [] /\
  storage.outcome l = Returned [] /\
  dict_get [] "Dune" = None.
Proof.
  cbv zeta. rewrite add_movie_overflow by reflexivity.
  repeat split.
Qed.

Lemma keep_others_split (title : string) (l1 l2 : storage.table) (r : storage.row) :
  storage.row_title r = title ->
  ~ In title (storage.titles l1) -> ~ In title (storage.titles l2) ->
  filter (fun r => negb (String.eqb (storage.row_title r) title))
    (l1 ++ r :: l2)%list
  = (l1 ++ l2)%list.
Proof.
  intros Hr H1 H2. rewrite filter_app. simpl.
  rewrite (keep_others_absent _ _ H1), (keep_others_absent _ _ H2).
  rewrite Hr, String.eqb_refl. reflexivity.
Qed.


(** C3.  On a table that obeys the UNIQUE constraint [delete_movie]
    returns to its caller.  When the title is present it reports success
    and the table loses exactly the one row of that title, every other row
    staying in place; when the title is absent it reports not-found and the
    table is unchanged. *)
Theorem delete_movie_removes_exactly (t : storage.table) (title : string) :
  storage.unique_titles t ->
  let e := storage.delete_movie storage.Healthy title t in
  storage.outcome e = Returned tt /\
  (In title (storage.titles t) ->
   storage.printed e = storage.reports_deleted title /\
   exists l1 r l2,
     t = (l1 ++ r :: l2)%list /\ storage.row_title r = title /\
     storage.stored e = (l1 ++ l2)%list /\
     ~ In title (storage.titles (storage.stored e))) /\
  (~ In title (storage.titles t) ->
   storage.printed e = storage.reports_NotFound title /\
   storage.stored e = t).
Proof.
  intros Hu e. unfold e. unfold_storage.
  fold (rows_titled title t).
  split; [|split].
  - destruct (0 <? List.length (rows_titled title t))%nat; reflexivity.
  - intros Hin.
    destruct (unique_split title t Hu Hin) as (l1 & r & l2 & E & Hr & H1 & H2).
    assert (Hc : rows_titled title t = [r])
      by (rewrite E; apply rows_titled_split; assumption).
    assert (Hk : filter (fun r => negb (String.eqb (storage.row_title r) title)) t
                 = (l1 ++ l2)%list)
      by (rewrite E; apply keep_others_split; assumption).
    rewrite Hc, Hk. simpl.
    split; [reflexivity|].
    exists l1, r, l2. repeat split; try assumption.
    unfold storage.titles. rewrite map_app. intros Hx.
    apply in_app_or in Hx. destruct Hx; [apply H1 | apply H2]; assumption.
  - intros Hout.
    rewrite rows_titled_absent, keep_others_absent by assumption. simpl.
    split; reflexivity.
Qed.

Lemma delete_movie_removes_exactly_witness :
  let t := [storage.mk_row "Alien" 1979 (85 # 10) "N/A";
            storage.mk_row "Dune" 2021 (8 # 1) ""] in
  (storage.printed (storage.delete_movie storage.Healthy "Dune" t)
   = ["Movie 'Dune' deleted successfully."] /\
   ~ In "Dune"
       (storage.titles
          (storage.stored (storage.delete_movie storage.Healthy "Dune" t)))) /\
  (storage.printed (storage.delete_movie storage.Healthy "Heat" t)
   = ["Movie 'Heat' not found."] /\
   storage.stored (storage.delete_movie storage.Healthy "Heat" t) = t).
Proof.
  intros t.
  assert (Hu : storage.unique_titles t) by (unfold t; explicit_list).
  split.
  - destruct (delete_movie_removes_exactly t "Dune" Hu) as (_ & H & _).
    destruct H as (Hp & l1 & r & l2 & _ & _ & _ & Hgone).
    + unfold t. explicit_list.
    + split; assumption.
  - destruct (delete_movie_removes_exactly t "Heat" Hu) as (_ & _ & H).
    apply H. unfold t. explicit_list.
Defined.



Lemma read_only_list_movies_any (eng : storage.engine) (t : storage.table) :
  storage.stored (storage.list_movies eng t) = t.
Proof.
  unfold storage.list_movies.
  destruct (storage.execute_select eng t) as [rows|[m|m|m]]; reflexivity.
Qed.

(** C9, as the code has it.  When the engine raises [OperationalError],
    [list_movies] returns the empty dict to its caller, prints the failure
    as one line and leaves the table alone.  A failure of any other class
    is not caught: it escapes to the caller, the table again untouched. *)
Theorem list_movies_operational_error (t : storage.table) (e : dbapi_error) :
  (forall m,
      storage.list_movies (storage.Failing (OperationalError m)) t
      = storage.mk_effect (Returned [])
          (storage.reports_StorageUnavailable m) t) /\
  ((exists m, e = OperationalError m) \/
   storage.list_movies (storage.Failing e) t
   = storage.mk_effect (Raised (DBAPIError e)) [] t) /\
  storage.stored (storage.list_movies (storage.Failing e) t) = t.
Proof.
  split; [reflexivity|]. split.
  - destruct e as [m|m|m]; [right; reflexivity | left; exists m; reflexivity
                           | right; reflexivity].
  - apply read_only_list_movies_any.
Qed.

(** C9, as stated, fails: a corrupt database file makes the driver raise
    [DatabaseError], which [except OperationalError] lets through. *)
Lemma list_movies_corrupt_store_raises :
  storage.outcome
    (storage.list_movies
       (storage.Failing (DatabaseError "database disk image is malformed")) [])
  = Raised (DBAPIError (DatabaseError "database disk image is malformed")) /\
  storage.printed
    (storage.list_movies
       (storage.Failing (DatabaseError "database disk image is malformed")) [])
  = [].
Proof.
  split; reflexivity.
Qed.

(** ** The monad *)

Lemma bind_returned {A B : Type} (m : M A) (k : A -> M B) t a :
  storage.outcome (m t) = Returned a ->
  bind m k t
  = storage.mk_effect (storage.outcome (k a (storage.stored (m t))))
      (storage.printed (m t) ++ storage.printed (k a (storage.stored (m t))))%list
      (storage.stored (k a (storage.stored (m t)))).
Proof.
  intros H. unfold bind. rewrite H. reflexivity.
Qed.

Lemma bind_raised {A B : Type} (m : M A) (k : A -> M B) t e :
  storage.outcome (m t) = Raised e ->
  bind m k t
  = storage.mk_effect (Raised e) (storage.printed (m t)) (storage.stored (m t)).
Proof.
  intros H. unfold bind. rewrite H. reflexivity.
Qed.

Lemma print_then {B : Type} (line : string) (k : M B) t :
  (print line ;;; k) t
  = storage.mk_effect (storage.outcome (k t)) (line :: storage.printed (k t))
      (storage.stored (k t)).
Proof.
  reflexivity.
Qed.

Lemma read_only_ret {A : Type} (a : A) : read_only (ret a).
Proof. intros t. reflexivity. Qed.

Lemma read_only_print (line : string) : read_only (print line).
Proof. intros t. reflexivity. Qed.

Lemma read_only_raise {A : Type} (e : exn) : read_only (@raise A e).
Proof. intros t. reflexivity. Qed.

Lemma read_only_bind {A B : Type} (m : M A) (k : A -> M B) :
  read_only m -> (forall a, read_only (k a)) -> read_only (bind m k).
Proof.
  intros Hm Hk t. unfold bind.
  destruct (storage.outcome (m t)) as [a|e] eqn:E; simpl.
  - rewrite Hk. apply Hm.
  - apply Hm.
Qed.

Lemma read_only_for_each {A : Type} (l : list A) (body : A -> M unit) :
  (forall x, read_only (body x)) -> read_only (for_each l body).
Proof.
  intros H. induction l as [|x l IH]; simpl.
  - apply read_only_ret.
  - apply read_only_bind; auto.
Qed.

Lemma read_only_list_movies (eng : storage.engine) :
  read_only (storage.list_movies eng).
Proof.
  intros t. apply read_only_list_movies_any.
Qed.

Ltac read_only_steps :=
  repeat first
    [ apply read_only_ret | apply read_only_print | apply read_only_raise
    | apply read_only_list_movies
    | apply read_only_bind; [| intros ? ]
    | apply read_only_for_each; intros ? ].

(** ** Where the bounds on year and rating are checked *)

Section EntryPaths.

Context {RT : PyRuntime}.

Lemma read_only_fetch_movie_data API_KEY http title :
  read_only (movies.fetch_movie_data API_KEY http title).
Proof.
  unfold movies.fetch_movie_data.
  destruct (String.eqb API_KEY ""); [read_only_steps|].
  destruct (http title) as [e|data]; [read_only_steps|].
  destruct (movies.json_get data "Response") as [v|]; [|read_only_steps].
  destruct (String.eqb_spec v "True") as [->|Hv].
  - destruct (int_of_str _); [|read_only_steps].
    destruct (float_of_str _); read_only_steps.
  - destruct v as [|c v]; [read_only_steps|].
    repeat (first [ progress read_only_steps
                  | match goal with
                    | |- context [match ?x with _ => _ end] => destruct x
                    end ]).
Qed.

(** A year inside the configured bounds fits the INTEGER column. *)
Lemma year_in_bounds_fits (y : Z) :
  (movies.MIN_YEAR <= y <= movies.MAX_YEAR)%Z -> storage.in_int64 y = true.
Proof.
  unfold movies.MIN_YEAR, movies.MAX_YEAR, storage.in_int64. intros H.
  assert (E : (2 ^ 63 = 9223372036854775808)%Z) by reflexivity.
  rewrite E. apply andb_true_intro.
  split; [apply Z.leb_le | apply Z.ltb_lt]; lia.
Qed.

(** [get_valid_year] hands back only years inside the configured bounds. *)
Lemma get_valid_year_in_bounds (inputs : list string) t y rest :
  storage.outcome (movies.get_valid_year inputs t) = Returned (y, rest) ->
  (movies.MIN_YEAR <= y <= movies.MAX_YEAR)%Z.
Proof.
  revert t. induction inputs as [|line inputs IH]; intros t; simpl.
  - discriminate.
  - destruct (int_of_str line) as [yr|].
    + destruct ((movies.MIN_YEAR <=? yr) && (yr <=? movies.MAX_YEAR))%Z eqn:E.
      * simpl. intros H. injection H as -> _.
        apply andb_prop in E. destruct E as [E1 E2]. lia.
      * rewrite print_then. simpl. apply IH.
    + rewrite print_then. simpl. apply IH.
Qed.

(** [get_valid_rating] hands back only ratings inside the configured
    bounds. *)
Lemma get_valid_rating_in_bounds (inputs : list string) t r rest :
  storage.outcome (movies.get_valid_rating inputs t) = Returned (r, rest) ->
  (movies.MIN_RATING <= r /\ r <= movies.MAX_RATING)%Q.
Proof.
  revert t. induction inputs as [|line inputs IH]; intros t; simpl.
  - discriminate.
  - destruct (float_of_str line) as [x|].
    + destruct (Qle_bool movies.MIN_RATING x && Qle_bool x movies.MAX_RATING)
        eqn:E.
      * simpl. intros H. injection H as -> _.
        apply andb_prop in E. destruct E as [E1 E2].
        split; apply Qle_bool_iff; assumption.
      * rewrite print_then. simpl. apply IH.
    + rewrite print_then. simpl. apply IH.
Qed.

Lemma read_only_get_valid_year (inputs : list string) :
  read_only (movies.get_valid_year inputs).
Proof.
  induction inputs as [|line inputs IH]; simpl; [read_only_steps|].
  destruct (int_of_str line) as [yr|]; [|read_only_steps; exact IH].
  destruct ((movies.MIN_YEAR <=? yr) && (yr <=? movies.MAX_YEAR))%Z;
    read_only_steps. exact IH.
Qed.

Lemma read_only_get_valid_rating (inputs : list string) :
  read_only (movies.get_valid_rating inputs).
Proof.
  induction inputs as [|line inputs IH]; simpl; [read_only_steps|].
  destruct (float_of_str line) as [x|]; [|read_only_steps; exact IH].
  destruct (Qle_bool movies.MIN_RATING x && Qle_bool x movies.MAX_RATING);
    read_only_steps. exact IH.
Qed.

End EntryPaths.

Section NoRangeCheck.

Context {RT : PyRuntime}.

(** C10.  The storage layer checks no range of its own: on a table obeying
    the UNIQUE constraint, [add_movie] with a fresh title appends the row
    with the year and rating it was given, whatever they are within what
    the INTEGER column holds, and the listing shows them unchanged; a year
    beyond the column makes the driver's [OverflowError] escape with
    nothing stored.  In [add_movies] the record fetched from the metadata
    service is stored as fetched, while a record stored after manual entry
    has its year within [MIN_YEAR..MAX_YEAR] and its rating within
    [MIN_RATING..MAX_RATING]. *)
Theorem bounds_checked_only_on_manual_entry
  (API_KEY : string) (http : string -> movies.http_outcome)
  (line : string) (inputs : list string) (t : storage.table) :
  storage.unique_titles t ->
  let title := py_strip line in
  let fetched := movies.fetch_movie_data API_KEY http title t in
  let e := movies.add_movies storage.Healthy API_KEY http (line :: inputs) t in
  (forall ti y r p,
      ~ In ti (storage.titles t) ->
      storage.in_int64 y = true ->
      storage.add_movie storage.Healthy ti y r p t
      = storage.mk_effect (Returned tt) (storage.reports_added ti)
          (t ++ [storage.mk_row ti y r p])%list /\
      storage.outcome
        (storage.list_movies storage.Healthy (t ++ [storage.mk_row ti y r p])%list)
      = Returned (map entry_of_row t ++ [(ti, mk_info y r p)])%list) /\
  (forall ti y r p,
      storage.in_int64 y = false ->
      storage.add_movie storage.Healthy ti y r p t
      = storage.mk_effect (Raised OverflowError) [] t) /\
  (forall d,
      title <> "" ->
      storage.outcome fetched = Returned (Some d) ->
      ~ In (movies.data_title d) (storage.titles t) ->
      storage.in_int64 (movies.data_year d) = true ->
      storage.stored e
      = (t ++ [storage.mk_row (movies.data_title d) (movies.data_year d)
                 (movies.data_rating d) (movies.data_poster_url d)])%list) /\
  (forall row,
      storage.outcome fetched = Returned None ->
      storage.stored e = (t ++ [row])%list ->
      (movies.MIN_YEAR <= storage.row_year row <= movies.MAX_YEAR)%Z /\
      (movies.MIN_RATING <= storage.row_rating row /\
       storage.row_rating row <= movies.MAX_RATING)%Q).
Proof.
  intros Hu title fetched e.
  assert (Hlonger : forall row, t <> (t ++ [row])%list).
  { intros row H. apply (f_equal (@List.length _)) in H.
    rewrite length_app in H. simpl in H. lia. }
  split; [|split; [|split]].
  - intros ti y r p Hfresh Hfit. split.
    + apply add_movie_fresh; assumption.
    + rewrite list_movies_healthy by (apply unique_titles_snoc; assumption).
      simpl. rewrite map_app. reflexivity.
  - intros ti y r p Hfit. apply add_movie_overflow. assumption.
  - intros d Hne Hfetch Hfresh Hfit. unfold e, movies.add_movies.
    rewrite print_then. cbn [storage.stored]. fold title.
    apply String.eqb_neq in Hne. rewrite Hne.
    rewrite print_then. cbn [storage.stored].
    rewrite (bind_returned _ _ _ _ Hfetch). cbn [storage.stored].
    rewrite print_then. cbn [storage.stored].
    rewrite read_only_fetch_movie_data.
    rewrite add_movie_fresh by assumption. reflexivity.
  - intros row Hfetch. unfold e, movies.add_movies.
    rewrite print_then. cbn [storage.stored]. fold title.
    destruct (String.eqb title "") eqn:Hne.
    { simpl. intros H. exfalso. exact (Hlonger _ H). }
    rewrite print_then. cbn [storage.stored].
    rewrite (bind_returned _ _ _ _ Hfetch). cbn [storage.stored].
    rewrite print_then. cbn [storage.stored].
    rewrite read_only_fetch_movie_data.
    destruct (storage.outcome (movies.get_valid_year inputs t))
      as [[y rest]|ex] eqn:Hy.
    2:{ rewrite (bind_raised _ _ _ _ Hy). cbn [storage.stored].
        rewrite read_only_get_valid_year.
        intros H. exfalso. exact (Hlonger _ H). }
    rewrite (bind_returned _ _ _ _ Hy). cbn [storage.stored fst snd].
    rewrite read_only_get_valid_year.
    destruct (storage.outcome (movies.get_valid_rating rest t))
      as [[r rest']|ex] eqn:Hr.
    2:{ rewrite (bind_raised _ _ _ _ Hr). cbn [storage.stored].
        rewrite read_only_get_valid_rating.
        intros H. exfalso. exact (Hlonger _ H). }
    rewrite (bind_returned _ _ _ _ Hr). cbn [storage.stored fst snd].
    rewrite read_only_get_valid_rating.
    pose proof (get_valid_year_in_bounds _ _ _ _ Hy) as Hyb.
    pose proof (year_in_bounds_fits _ Hyb) as Hfit.
    destruct (in_dec string_dec title (storage.titles t)) as [Hin|Hout].
    + rewrite add_movie_present by assumption. cbn [storage.stored].
      intros H. exfalso. exact (Hlonger _ H).
    + rewrite add_movie_fresh by assumption. cbn [storage.stored].
      intros H. apply app_inv_head in H. injection H as <-. simpl.
      split.
      * exact Hyb.
      * exact (get_valid_rating_in_bounds _ _ _ _ Hr).
Qed.

End NoRangeCheck.

Lemma bounds_checked_only_on_manual_entry_witness :
  let http := fun _ : string =>
    movies.JsonObject [("Response", "True"); ("Title", "Untitled")] in
  let manual :=
    storage.stored
      (@movies.add_movies sample_runtime storage.Healthy "" http
         ["Dune"; "1800"; "2021"; "11"; "8"] []) in
  storage.unique_titles [] /\
  storage.stored
    (@movies.add_movies sample_runtime storage.Healthy "key" http
       [" Untitled "] [])
  = [storage.mk_row "Untitled" 0 (0 # 1) ""] /\
  storage.add_movie storage.Healthy "Untitled" (-5) (99 # 1) "" []
  = storage.mk_effect (Returned tt) ["Movie 'Untitled' added successfully."]
      [storage.mk_row "Untitled" (-5) (99 # 1) ""] /\
  storage.add_movie storage.Healthy "Untitled" (2 ^ 64) (5 # 1) "" []
  = storage.mk_effect (Raised OverflowError) [] [] /\
  manual = [storage.mk_row "Dune" 2021 (8 # 1) ""] /\
  (1888 <= 2021 <= 2026)%Z /\ (0 <= 8 # 1 /\ 8 # 1 <= 10)%Q.
Proof.
  intros http manual.
  assert (Hu : storage.unique_titles []) by constructor.
  destruct (@bounds_checked_only_on_manual_entry sample_runtime "key" http
              " Untitled " [] [] Hu) as (Hstore & Hover & Hapi & _).
  destruct (@bounds_checked_only_on_manual_entry sample_runtime "" http
              "Dune" ["1800"; "2021"; "11"; "8"] [] Hu) as (_ & _ & _ & Hmanual).
  split; [exact Hu|]. split; [|split; [|split; [|split]]].
  - apply (Hapi (movies.mk_data "Untitled" 0 (0 # 1) "")).
    + vm_compute. discriminate.
    + reflexivity.
    + simpl. tauto.
    + reflexivity.
  - apply Hstore; [simpl; tauto | reflexivity].
  - apply Hover. reflexivity.
  - reflexivity.
  - apply (Hmanual (storage.mk_row "Dune" 2021 (8 # 1) "")); reflexivity.
Defined.

(** C10, the case the claim leaves out: a year below the INTEGER column's
    smallest value, with a rating inside the bounds.  [add_movie] on a
    fresh title prints no report and raises; the record is not persisted
    and the listing stays empty. *)
Lemma add_movie_year_below_range :
  let e := storage.add_movie storage.Healthy "Dune" (- 2 ^ 63 - 1) (5 # 1) ""
             [] in
  storage.has_title [] "Dune" = false /\
  storage.outcome e = Raised OverflowError /\
  storage.printed e = [] /\
  storage.stored e = [] /\
  storage.outcome (storage.list_movies storage.Healthy (storage.stored e))
  = Returned [].
Proof.
  cbv zeta. rewrite add_movie_overflow by reflexivity.
  repeat split.
Qed.

(** ** Maximum, minimum and mean *)

Lemma Qlt_bool_true (a b : Q) : Qlt_bool a b = true -> (a < b)%Q.
Proof.
  unfold Qlt_bool. intros H. apply negb_true_iff in H.
  apply Qnot_le_lt. intros Hle. apply Qle_bool_iff in Hle. congruence.
Qed.

Lemma Qlt_bool_false (a b : Q) : Qlt_bool a b = false -> (b <= a)%Q.
Proof.
  unfold Qlt_bool. intros H. apply negb_false_iff in H.
  apply Qle_bool_iff. assumption.
Qed.

Section Extremum.

Context {A : Type} (key : A -> Q).

Lemma py_max_by_scan (rest pre mid : list A) (b : A) :
  (forall x, In x pre -> (key x < key b)%Q) ->
  (forall x, In x mid -> (key x <= key b)%Q) ->
  first_maximum key (py_max_by key b rest) (pre ++ b :: mid ++ rest)%list.
Proof.
  revert pre mid b. induction rest as [|x rest IH]; intros pre mid b Hpre Hmid.
  - simpl. exists pre, mid. rewrite app_nil_r. auto.
  - simpl. destruct (Qlt_bool (key b) (key x)) eqn:E.
    + apply Qlt_bool_true in E.
      replace (pre ++ b :: mid ++ x :: rest)%list
        with ((pre ++ b :: mid) ++ x :: [] ++ rest)%list
        by (rewrite <- app_assoc; reflexivity).
      apply IH.
      * intros z Hz. apply in_app_or in Hz. destruct Hz as [Hz|[<-|Hz]].
        -- apply Qlt_trans with (key b); auto.
        -- assumption.
        -- apply Qle_lt_trans with (key b); auto.
      * intros z [].
    + apply Qlt_bool_false in E.
      replace (pre ++ b :: mid ++ x :: rest)%list
        with (pre ++ b :: (mid ++ [x]) ++ rest)%list
        by (rewrite <- app_assoc; reflexivity).
      apply IH; [assumption|].
      intros z Hz. apply in_app_or in Hz. destruct Hz as [Hz|[<-|[]]]; auto.
Qed.

Lemma py_min_by_scan (rest pre mid : list A) (b : A) :
  (forall x, In x pre -> (key b < key x)%Q) ->
  (forall x, In x mid -> (key b <= key x)%Q) ->
  first_minimum key (py_min_by key b rest) (pre ++ b :: mid ++ rest)%list.
Proof.
  revert pre mid b. induction rest as [|x rest IH]; intros pre mid b Hpre Hmid.
  - simpl. exists pre, mid. rewrite app_nil_r. auto.
  - simpl. destruct (Qlt_bool (key x) (key b)) eqn:E.
    + apply Qlt_bool_true in E.
      replace (pre ++ b :: mid ++ x :: rest)%list
        with ((pre ++ b :: mid) ++ x :: [] ++ rest)%list
        by (rewrite <- app_assoc; reflexivity).
      apply IH.
      * intros z Hz. apply in_app_or in Hz. destruct Hz as [Hz|[<-|Hz]].
        -- apply Qlt_trans with (key b); auto.
        -- assumption.
        -- apply Qlt_le_trans with (key b); auto.
      * intros z [].
    + apply Qlt_bool_false in E.
      replace (pre ++ b :: mid ++ x :: rest)%list
        with (pre ++ b :: (mid ++ [x]) ++ rest)%list
        by (rewrite <- app_assoc; reflexivity).
      apply IH; [assumption|].
      intros z Hz. apply in_app_or in Hz. destruct Hz as [Hz|[<-|[]]]; auto.
Qed.

(** [max] returns the first item with the largest key. *)
Lemma py_max_by_first_maximum (first : A) (rest : list A) :
  first_maximum key (py_max_by key first rest) (first :: rest).
Proof.
  apply (py_max_by_scan rest [] [] first); intros x [].
Qed.

(** [min] returns the first item with the smallest key. *)
Lemma py_min_by_first_minimum (first : A) (rest : list A) :
  first_minimum key (py_min_by key first rest) (first :: rest).
Proof.
  apply (py_min_by_scan rest [] [] first); intros x [].
Qed.

End Extremum.

(** ** The catalogue service *)

Lemma bind_list_movies {B : Type} (k : movie_dict -> M B) (t : storage.table) :
  storage.unique_titles t ->
  bind (storage.list_movies storage.Healthy) k t = k (map entry_of_row t) t.
Proof.
  intros Hu. unfold bind. rewrite list_movies_healthy by assumption.
  cbn [storage.outcome storage.printed storage.stored app].
  destruct (k (map entry_of_row t) t). reflexivity.
Qed.

Section Statistics.

Context {RT : PyRuntime}.


End Statistics.



(** ** Sorting by rating *)

Section StableSort.

Context {A : Type} (key : A -> Q).

Lemma insert_desc_perm (x : A) (l : list A) :
  Permutation (insert_desc key x l) (x :: l).
Proof.
  induction l as [|y l IH]; simpl.
  - apply Permutation_refl.
  - destruct (Qlt_bool (key x) (key y)).
    + apply perm_trans with (y :: x :: l).
      * apply perm_skip. exact IH.
      * apply perm_swap.
    + apply Permutation_refl.
Qed.

Lemma py_sorted_reverse_perm (l : list A) :
  Permutation (py_sorted_reverse key l) l.
Proof.
  induction l as [|x l IH]; simpl.
  - apply perm_nil.
  - apply perm_trans with (x :: py_sorted_reverse key l).
    + apply insert_desc_perm.
    + apply perm_skip. exact IH.
Qed.

Lemma insert_desc_descending (x : A) (l : list A) :
  descending key l -> descending key (insert_desc key x l).
Proof.
  unfold descending. induction l as [|y l IH]; simpl; intros Hs.
  - repeat constructor.
  - inversion Hs as [|? ? Hl Hy]; subst.
    destruct (Qlt_bool (key x) (key y)) eqn:E.
    + apply Qlt_bool_true in E. constructor.
      * apply IH. assumption.
      * apply (Permutation_Forall (Permutation_sym (insert_desc_perm x l))).
        constructor; [apply Qlt_le_weak; assumption | assumption].
    + apply Qlt_bool_false in E. constructor; [assumption|].
      constructor; [assumption|].
      apply Forall_impl with (2 := Hy).
      intros z Hz. apply Qle_trans with (key y); assumption.
Qed.

Lemma py_sorted_reverse_descending (l : list A) :
  descending key (py_sorted_reverse key l).
Proof.
  induction l as [|x l IH]; simpl.
  - constructor.
  - apply insert_desc_descending. exact IH.
Qed.

Lemma insert_desc_tied (q : Q) (x : A) (l : list A) :
  tied key q (insert_desc key x l) = tied key q (x :: l).
Proof.
  unfold tied. induction l as [|y l IH]; [reflexivity|].
  cbn [insert_desc]. destruct (Qlt_bool (key x) (key y)) eqn:E; [|reflexivity].
  apply Qlt_bool_true in E.
  cbn [filter]. rewrite IH. cbn [filter].
  destruct (Qeq_bool (key x) q) eqn:Ex, (Qeq_bool (key y) q) eqn:Ey;
    try reflexivity.
  apply Qeq_bool_iff in Ex. apply Qeq_bool_iff in Ey.
  exfalso. rewrite Ex, Ey in E. exact (Qlt_irrefl q E).
Qed.

(** The sort is stable: items with equal keys keep their order. *)
Lemma py_sorted_reverse_tied (q : Q) (l : list A) :
  tied key q (py_sorted_reverse key l) = tied key q l.
Proof.
  induction l as [|x l IH]; [reflexivity|].
  cbn [py_sorted_reverse]. rewrite insert_desc_tied.
  unfold tied in *. cbn [filter]. rewrite IH. reflexivity.
Qed.

Lemma tied_cons_inv (q : Q) (x : A) (l1 l2 : list A) :
  tied key q (x :: l1) = tied key q (x :: l2) -> tied key q l1 = tied key q l2.
Proof.
  unfold tied. cbn [filter]. destruct (Qeq_bool (key x) q); intros H.
  - injection H as H. exact H.
  - exact H.
Qed.

(** Stable sorting has one answer: two descending rearrangements of the
    same items that both keep tied items in order are the same list. *)
Lemma stable_descending_unique (l1 l2 : list A) :
  Permutation l1 l2 -> descending key l1 -> descending key l2 ->
  (forall q, tied key q l1 = tied key q l2) -> l1 = l2.
Proof.
  revert l2. induction l1 as [|x l1 IH]; intros l2 Hp Hd1 Hd2 Ht.
  - apply Permutation_nil in Hp. auto.
  - destruct l2 as [|y l2].
    + apply Permutation_sym, Permutation_nil in Hp. discriminate Hp.
    + inversion Hd1 as [|? ? Hd1' Hx]; subst.
      inversion Hd2 as [|? ? Hd2' Hy]; subst.
      assert (Hxy : (key x == key y)%Q).
      { apply Qle_antisym.
        - assert (Hin : In x (y :: l2))
            by (apply (Permutation_in _ Hp); left; reflexivity).
          destruct Hin as [<-|Hin]; [apply Qle_refl|].
          rewrite Forall_forall in Hy. auto.
        - assert (Hin : In y (x :: l1))
            by (apply (Permutation_in _ (Permutation_sym Hp)); left; reflexivity).
          destruct Hin as [<-|Hin]; [apply Qle_refl|].
          rewrite Forall_forall in Hx. auto. }
      assert (E : x = y).
      { pose proof (Ht (key x)) as H. unfold tied in H. cbn [filter] in H.
        rewrite (proj2 (Qeq_bool_iff (key y) (key x)) (Qeq_sym _ _ Hxy)) in H.
        rewrite (proj2 (Qeq_bool_iff (key x) (key x)) (Qeq_refl _)) in H.
        injection H as H _. exact H. }
      subst y. f_equal. apply IH; try assumption.
      * apply Permutation_cons_inv with x. exact Hp.
      * intros q. apply tied_cons_inv with x. apply Ht.
Qed.

(** So any stable descending sort returns what [py_sorted_reverse] does. *)
Lemma py_sorted_reverse_unique (l l' : list A) :
  Permutation l' l -> descending key l' ->
  (forall q, tied key q l' = tied key q l) ->
  l' = py_sorted_reverse key l.
Proof.
  intros Hp Hd Ht. apply stable_descending_unique.
  - apply perm_trans with l; [exact Hp|].
    apply Permutation_sym, py_sorted_reverse_perm.
  - exact Hd.
  - apply py_sorted_reverse_descending.
  - intros q. rewrite py_sorted_reverse_tied. apply Ht.
Qed.

End StableSort.

Lemma for_each_print {A : Type} (f : A -> string) (body : A -> M unit)
  (l : list A) (t : storage.table) :
  (forall x, body x = print (f x)) ->
  for_each l body t = storage.mk_effect (Returned tt) (map f l) t.
Proof.
  intros H. induction l as [|x l IH]; simpl.
  - reflexivity.
  - rewrite H, print_then, IH. reflexivity.
Qed.

Section SortedView.

Context {RT : PyRuntime}.

(** C6.  On a table obeying the UNIQUE constraint
    [movies_sorted_by_rating] returns without touching the table, so a
    second call gives the same result as the first.  For a non-empty record
    set it prints a header and then one line per record in the order
    [sorted_movies]; that order holds every record once, runs from the
    highest rating to the lowest, and keeps records of equal rating in
    listing order.  For the empty record set it prints that there is
    nothing to sort. *)
Theorem movies_sorted_by_rating_stable (t : storage.table) :
  storage.unique_titles t ->
  let e := movies.movies_sorted_by_rating storage.Healthy t in
  let items := map entry_of_row t in
  let sorted_movies := py_sorted_reverse movies.rating_key items in
  storage.outcome e = Returned tt /\
  storage.stored e = t /\
  movies.movies_sorted_by_rating storage.Healthy (storage.stored e) = e /\
  (items = [] ->
   storage.printed e
   = [LF ++ movies.RED ++ "  No movies to sort." ++ movies.RESET]) /\
  (items <> [] ->
   storage.printed e
   = (LF ++ movies.THEME ++ "  MOVIES SORTED BY RATING:" ++ movies.RESET ++ LF)
       :: map sorted_line sorted_movies) /\
  Permutation sorted_movies items /\
  descending movies.rating_key sorted_movies /\
  (forall q, tied movies.rating_key q sorted_movies
             = tied movies.rating_key q items).
Proof.
  intros Hu e items sorted_movies.
  assert (He : e = match items with
                   | [] => storage.mk_effect (Returned tt)
                             [LF ++ movies.RED ++ "  No movies to sort."
                              ++ movies.RESET] t
                   | _ => storage.mk_effect (Returned tt)
                            ((LF ++ movies.THEME ++ "  MOVIES SORTED BY RATING:"
                              ++ movies.RESET ++ LF)
                               :: map sorted_line sorted_movies) t
                   end).
  { unfold e, movies.movies_sorted_by_rating.
    rewrite bind_list_movies by assumption. fold items.
    destruct items as [|x0 l0] eqn:E; [reflexivity|].
    rewrite print_then.
    rewrite (for_each_print sorted_line).
    - reflexivity.
    - intros [title info]. reflexivity. }
  assert (Hstored : storage.stored e = t).
  { rewrite He. destruct items; reflexivity. }
  split; [rewrite He; destruct items; reflexivity|].
  split; [exact Hstored|].
  split; [rewrite Hstored; reflexivity|].
  split; [intros H; rewrite He, H; reflexivity|].
  split.
  { intros H. rewrite He. destruct items; [congruence | reflexivity]. }
  split; [apply py_sorted_reverse_perm|].
  split; [apply py_sorted_reverse_descending|].
  intros q. apply py_sorted_reverse_tied.
Qed.

End SortedView.

Lemma movies_sorted_by_rating_stable_witness :
  let t := [storage.mk_row "A" 2001 (7 # 1) "";
            storage.mk_row "B" 2002 (9 # 1) "";
            storage.mk_row "C" 2003 (3 # 1) ""] in
  let e := @movies.movies_sorted_by_rating sample_runtime storage.Healthy t in
  py_sorted_reverse movies.rating_key (map entry_of_row t)
  = [("B", mk_info 2002 (9 # 1) ""); ("A", mk_info 2001 (7 # 1) "");
     ("C", mk_info 2003 (3 # 1) "")] /\
  storage.printed e
  = [LF ++ movies.THEME ++ "  MOVIES SORTED BY RATING:" ++ movies.RESET ++ LF;
     movies.THEME ++ " B (2002) ................................ 9.0"
       ++ movies.RESET;
     movies.THEME ++ " A (2001) ................................ 7.0"
       ++ movies.RESET;
     movies.THEME ++ " C (2003) ................................ 3.0"
       ++ movies.RESET] /\
  @movies.movies_sorted_by_rating sample_runtime storage.Healthy
    (storage.stored e) = e.
Proof.
  intros t e.
  assert (Hu : storage.unique_titles t) by (unfold t; explicit_list).
  destruct (@movies_sorted_by_rating_stable sample_runtime t Hu)
    as (_ & _ & Hagain & _ & Hprint & _).
  split; [reflexivity|]. split; [|exact Hagain].
  apply Hprint. discriminate.
Defined.

(** ** Strings *)

Lemma append_nil_r (s : string) : s ++ "" = s.
Proof.
  induction s as [|c s IH]; simpl; [reflexivity | rewrite IH; reflexivity].
Qed.

Lemma append_assoc (a b c : string) : (a ++ b) ++ c = a ++ b ++ c.
Proof.
  induction a as [|x a IH]; simpl; [reflexivity | rewrite IH; reflexivity].
Qed.

Lemma prefix_nil (s : string) : prefix "" s = true.
Proof.
  destruct s; reflexivity.
Qed.

Lemma prefix_cons (a b : ascii) (q s : string) :
  prefix (String a q) (String b s) = if Ascii.eqb a b then prefix q s else false.
Proof.
  simpl. destruct (ascii_dec a b) as [->|Hne].
  - rewrite Ascii.eqb_refl. reflexivity.
  - apply Ascii.eqb_neq in Hne. rewrite Hne. reflexivity.
Qed.

Lemma prefix_append (q s : string) :
  prefix q s = true <-> exists post, s = q ++ post.
Proof.
  revert s. induction q as [|a q IH]; intros s.
  - rewrite prefix_nil. split; [|reflexivity]. intros _. exists s. reflexivity.
  - destruct s as [|b s].
    + simpl. split; [discriminate|]. intros [post H]. discriminate H.
    + rewrite prefix_cons. destruct (Ascii.eqb_spec a b) as [->|Hne].
      * rewrite IH. split; intros [post H]; exists post.
        -- simpl. rewrite H. reflexivity.
        -- simpl in H. injection H as H. exact H.
      * split; [discriminate|]. intros [post H]. simpl in H.
        injection H as H _. congruence.
Qed.

(** [q in s] holds exactly when [s] contains [q]. *)
Lemma py_in_contains (q s : string) : py_in q s = true <-> contains q s.
Proof.
  unfold contains. induction s as [|c s IH].
  - cbn [py_in]. rewrite orb_false_r. rewrite prefix_append. split.
    + intros [post H]. exists "", post. exact H.
    + intros [pre [post H]]. destruct pre as [|x pre]; [|discriminate H].
      exists post. exact H.
  - cbn [py_in]. rewrite orb_true_iff, IH, prefix_append. split.
    + intros [[post H]|[pre [post H]]].
      * exists "", post. exact H.
      * exists (String c pre), post. simpl. rewrite H. reflexivity.
    + intros [pre [post H]]. destruct pre as [|x pre].
      * left. exists post. exact H.
      * right. simpl in H. injection H as _ H. exists pre, post. exact H.
Qed.

(** ** Searching *)

Section Search.

Context {RT : PyRuntime}.

Lemma search_loop_prints (query : string) (items : movie_dict) (found : bool)
  (t : storage.table) :
  movies.search_loop query items found t
  = storage.mk_effect
      (Returned (found || negb (Nat.eqb (List.length (matches query items)) 0)))
      (map match_line (matches query items)) t.
Proof.
  revert found. induction items as [|[title info] items IH]; intros found.
  - simpl. rewrite orb_false_r. reflexivity.
  - cbn [movies.search_loop matches filter fst].
    destruct (py_in query (py_lower title)).
    + rewrite print_then, IH. simpl. rewrite orb_true_r. reflexivity.
    + rewrite IH. reflexivity.
Qed.

(** C7, as the code has it.  [search_movie] strips the typed line and
    lower-cases it.  When nothing is left it prints nothing and selects
    nothing.  Otherwise it prints one line for each record whose
    lower-cased title contains that query, in listing order, and every
    other record is left out; when no record matches it prints the
    no-match message. *)
Theorem search_movie_stripped_query (line : string) (t : storage.table) :
  storage.unique_titles t ->
  let query := py_lower (py_strip line) in
  let items := map entry_of_row t in
  let e := movies.search_movie storage.Healthy line t in
  storage.outcome e = Returned tt /\
  storage.stored e = t /\
  (query = "" -> storage.printed e = []) /\
  (query <> "" -> matches query items <> [] ->
   storage.printed e = map match_line (matches query items)) /\
  (query <> "" -> matches query items = [] ->
   storage.printed e
   = [movies.RED ++ "  No movies found matching '" ++ query ++ "'."
      ++ movies.RESET]) /\
  (forall x, In x (matches query items) <->
             In x items /\ contains query (py_lower (fst x))).
Proof.
  intros Hu query items e.
  assert (Hspec : forall x, In x (matches query items) <->
                            In x items /\ contains query (py_lower (fst x))).
  { intros x. unfold matches. rewrite filter_In, py_in_contains. tauto. }
  assert (He : e = if String.eqb query "" then storage.mk_effect (Returned tt) [] t
                   else match matches query items with
                        | [] => storage.mk_effect (Returned tt)
                                  [movies.RED ++ "  No movies found matching '"
                                   ++ query ++ "'." ++ movies.RESET] t
                        | ms => storage.mk_effect (Returned tt)
                                  (map match_line ms) t
                        end).
  { unfold e, movies.search_movie. fold query.
    destruct (String.eqb query ""); [reflexivity|].
    rewrite bind_list_movies by assumption. fold items.
    unfold bind. rewrite search_loop_prints.
    cbn [storage.outcome storage.printed storage.stored orb].
    destruct (matches query items) as [|x l]; simpl; [reflexivity|].
    rewrite app_nil_r. reflexivity. }
  rewrite He. clear He.
  destruct (String.eqb_spec query "") as [Hq|Hq].
  - do 2 (split; [reflexivity|]). split; [reflexivity|].
    split; [congruence|]. split; [congruence|]. exact Hspec.
  - split; [destruct (matches query items); reflexivity|].
    split; [destruct (matches query items); reflexivity|].
    split; [congruence|].
    split; [intros _ H; destruct (matches query items); [congruence|reflexivity]|].
    split; [intros _ H; rewrite H; reflexivity|]. exact Hspec.
Qed.

End Search.

Lemma search_movie_stripped_query_witness :
  let t := [storage.mk_row "Catwoman" 2004 (34 # 10) "";
            storage.mk_row "Batman" 1989 (75 # 10) "";
            storage.mk_row "Dune" 2021 (8 # 1) ""] in
  matches "at" (map entry_of_row t)
  = [("Catwoman", mk_info 2004 (34 # 10) "");
     ("Batman", mk_info 1989 (75 # 10) "")] /\
  storage.printed (@movies.search_movie sample_runtime storage.Healthy "at" t)
  = [@match_line sample_runtime ("Catwoman", mk_info 2004 (34 # 10) "");
     @match_line sample_runtime ("Batman", mk_info 1989 (75 # 10) "")] /\
  storage.printed (@movies.search_movie sample_runtime storage.Healthy "" t)
  = [].
Proof.
  intros t.
  assert (Hu : storage.unique_titles t) by (unfold t; explicit_list).
  split; [reflexivity|]. split.
  - destruct (@search_movie_stripped_query sample_runtime "at" t Hu)
      as (_ & _ & _ & Hsome & _).
    apply Hsome; discriminate.
  - destruct (@search_movie_stripped_query sample_runtime "" t Hu)
      as (_ & _ & Hnone & _).
    apply Hnone. reflexivity.
Defined.

(** C7, as stated, fails on a line with surrounding blanks.  Typing "at "
    selects Catwoman and Batman, neither of which contains "at " in any
    letter case; typing one blank selects nothing although the title
    "Star Wars" contains a blank. *)
Lemma search_movie_blank_counterexample :
  let t := [storage.mk_row "Catwoman" 2004 (34 # 10) "";
            storage.mk_row "Batman" 1989 (75 # 10) "";
            storage.mk_row "Dune" 2021 (8 # 1) ""] in
  let t' := [storage.mk_row "Star Wars" 1977 (86 # 10) ""] in
  (storage.printed (@movies.search_movie sample_runtime storage.Healthy "at " t)
   = [@match_line sample_runtime ("Catwoman", mk_info 2004 (34 # 10) "");
      @match_line sample_runtime ("Batman", mk_info 1989 (75 # 10) "")] /\
   py_in (py_lower "at ") (py_lower "Catwoman") = false /\
   py_in (py_lower "at ") (py_lower "Batman") = false) /\
  (storage.printed (@movies.search_movie sample_runtime storage.Healthy " " t')
   = [] /\
   py_in (py_lower " ") (py_lower "Star Wars") = true).
Proof.
  repeat split; reflexivity.
Qed.

(** ** Text without underscores *)

Lemma no_underscore_append (a b : string) :
  no_underscore (a ++ b) = no_underscore a && no_underscore b.
Proof.
  induction a as [|x a IH]; simpl; [reflexivity|].
  rewrite IH, andb_assoc. reflexivity.
Qed.

Lemma prefix_underscore_first (old' : string) (c : ascii) (s : string) :
  Ascii.eqb c "_" = false -> prefix (String "_" old') (String c s) = false.
Proof.
  intros H. rewrite prefix_cons, Ascii.eqb_sym, H. reflexivity.
Qed.

(** A text without underscores has no prefix with one. *)
Lemma prefix_needs_underscore (p s : string) :
  no_underscore s = true -> no_underscore p = false -> prefix p s = false.
Proof.
  revert s. induction p as [|a p IH]; intros s Hs Hp; [discriminate Hp|].
  destruct s as [|b s]; [reflexivity|].
  rewrite prefix_cons. destruct (Ascii.eqb_spec a b) as [->|Hne]; [|reflexivity].
  simpl in Hs, Hp. apply andb_prop in Hs. destruct Hs as [Hb Hs].
  rewrite Hb in Hp. simpl in Hp. apply IH; assumption.
Qed.

(** [replace] copies a text without underscores when the token starts
    with one. *)
Lemma replace_from_text (old' new a rest : string) :
  no_underscore a = true ->
  replace_from (String "_" old') new (a ++ rest) 0
  = a ++ replace_from (String "_" old') new rest 0.
Proof.
  induction a as [|c a IH]; intros Ha; [reflexivity|].
  simpl in Ha. apply andb_prop in Ha. destruct Ha as [Hc Ha].
  apply negb_true_iff in Hc.
  change (String c a ++ rest) with (String c (a ++ rest)).
  cbn [replace_from]. rewrite (prefix_underscore_first _ _ _ Hc).
  rewrite IH by assumption. reflexivity.
Qed.

Lemma replace_from_text_only (old' new a : string) :
  no_underscore a = true ->
  replace_from (String "_" old') new a 0 = a.
Proof.
  intros Ha. rewrite <- (append_nil_r a) at 1.
  rewrite replace_from_text by assumption. simpl. apply append_nil_r.
Qed.

Lemma replace_from_skip (old new x rest : string) :
  replace_from old new (x ++ rest) (String.length x)
  = replace_from old new rest 0.
Proof.
  induction x as [|c x IH]; simpl.
  - destruct rest; reflexivity.
  - exact IH.
Qed.

Lemma prefix_self (old rest : string) : prefix old (old ++ rest) = true.
Proof.
  apply prefix_append. exists rest. reflexivity.
Qed.

(** [replace] puts [new] where the token stands. *)
Lemma replace_from_token (c : ascii) (old' new rest : string) :
  replace_from (String c old') new (String c old' ++ rest) 0
  = new ++ replace_from (String c old') new rest 0.
Proof.
  change (String c old' ++ rest) with (String c (old' ++ rest)).
  cbn [replace_from].
  change (String c (old' ++ rest)) with (String c old' ++ rest).
  rewrite prefix_self.
  replace (String.length (String c old') - 1)%nat with (String.length old')
    by (simpl; lia).
  rewrite replace_from_skip. reflexivity.
Qed.

(** Replacing the title token leaves the grid token alone, provided the
    two underscores that end the grid token do not start a title token
    together with what follows. *)
Lemma replace_title_over_grid (new rest : string) :
  prefix "TEMPLATE_TITLE__" rest = false ->
  prefix "_TEMPLATE_TITLE__" rest = false ->
  replace_from movies.TEMPLATE_TITLE new (movies.TEMPLATE_MOVIE_GRID ++ rest) 0
  = movies.TEMPLATE_MOVIE_GRID ++ replace_from movies.TEMPLATE_TITLE new rest 0.
Proof.
  intros H1 H2. unfold movies.TEMPLATE_TITLE, movies.TEMPLATE_MOVIE_GRID.
  cbn -[prefix].
  repeat (rewrite prefix_cons; cbn -[prefix]).
  rewrite H1, H2. reflexivity.
Qed.

(** In texts without underscores the first underscore of a string is
    where the text ends. *)
Lemma first_underscore_unique (a a' r r' : string) :
  no_underscore a = true -> no_underscore a' = true ->
  a ++ String "_" r = a' ++ String "_" r' -> a = a' /\ r = r'.
Proof.
  revert a'. induction a as [|x a IH]; intros a' Ha Ha' H.
  - destruct a' as [|y a'].
    + simpl in H. injection H as H. auto.
    + simpl in H, Ha'. injection H as Hy _. subst y. discriminate Ha'.
  - destruct a' as [|y a'].
    + simpl in H, Ha. injection H as Hx _. subst x. discriminate Ha.
    + simpl in H, Ha, Ha'. injection H as Hxy H. subst y.
      apply andb_prop in Ha. apply andb_prop in Ha'.
      destruct (IH a' (proj2 Ha) (proj2 Ha') H) as [-> ->]. auto.
Qed.

(** A pattern whose first underscore is followed by another character
    does not start a text whose first underscore is doubled. *)
Lemma prefix_single_underscore (u v b s : string) (x : ascii) :
  no_underscore u = true -> no_underscore b = true ->
  Ascii.eqb x "_" = false ->
  prefix (u ++ String "_" (String x v)) (b ++ String "_" (String "_" s)) = false.
Proof.
  intros Hu Hb Hx.
  destruct (prefix _ _) eqn:E; [|reflexivity].
  apply prefix_append in E. destruct E as [post E].
  rewrite append_assoc in E. simpl in E.
  apply first_underscore_unique in E; try assumption.
  destruct E as [_ E]. injection E as E _. subst x. discriminate Hx.
Qed.

(** ** Occurrences of a token *)

Lemma py_in_after_text (tok' x s : string) :
  no_underscore x = true ->
  py_in (String "_" tok') (x ++ s) = py_in (String "_" tok') s.
Proof.
  induction x as [|c x IH]; intros Hx; [reflexivity|].
  simpl in Hx. apply andb_prop in Hx. destruct Hx as [Hc Hx].
  apply negb_true_iff in Hc.
  change (String c x ++ s) with (String c (x ++ s)).
  cbn [py_in]. rewrite (prefix_underscore_first _ _ _ Hc).
  simpl. apply IH. assumption.
Qed.

Lemma py_in_text (tok' x : string) :
  no_underscore x = true -> py_in (String "_" tok') x = false.
Proof.
  intros Hx. rewrite <- (append_nil_r x).
  rewrite py_in_after_text by assumption. reflexivity.
Qed.

Lemma prefix_before_text (tok u y : string) :
  ends_with_underscore tok = true -> no_underscore y = true ->
  prefix tok (u ++ y) = prefix tok u.
Proof.
  revert u y. induction tok as [|a tok IH]; intros u y Ht Hy; [discriminate Ht|].
  destruct tok as [|a' tok].
  - simpl in Ht. apply Ascii.eqb_eq in Ht. subst a.
    destruct u as [|b u].
    + simpl (prefix _ ""). destruct y as [|b y]; [reflexivity|].
      simpl in Hy. apply andb_prop in Hy. destruct Hy as [Hb _].
      apply negb_true_iff in Hb.
      apply prefix_underscore_first. assumption.
    + change (String b u ++ y) with (String b (u ++ y)).
      rewrite !prefix_cons, !prefix_nil. reflexivity.
  - assert (Ht' : ends_with_underscore (String a' tok) = true) by exact Ht.
    destruct u as [|b u].
    + simpl (prefix _ ""). destruct y as [|b y]; [reflexivity|].
      simpl in Hy. apply andb_prop in Hy. destruct Hy as [_ Hy].
      change ("" ++ String b y) with (String b ("" ++ y)).
      rewrite prefix_cons, (IH "" y Ht' Hy).
      destruct (Ascii.eqb a b); reflexivity.
    + change (String b u ++ y) with (String b (u ++ y)).
      rewrite !prefix_cons, (IH u y Ht' Hy). reflexivity.
Qed.

Lemma py_in_before_text (tok' s y : string) :
  ends_with_underscore (String "_" tok') = true -> no_underscore y = true ->
  py_in (String "_" tok') (s ++ y) = py_in (String "_" tok') s.
Proof.
  intros Ht Hy. induction s as [|c s IH].
  - simpl ("" ++ y). rewrite py_in_text by assumption. reflexivity.
  - change (String c s ++ y) with (String c (s ++ y)).
    cbn [py_in]. rewrite IH.
    change (String c (s ++ y)) with (String c s ++ y).
    rewrite prefix_before_text by assumption. reflexivity.
Qed.

(** A token that starts and ends with an underscore shows up between two
    texts without underscores only if it shows up in what they enclose. *)
Lemma py_in_enclosed (tok' x s y : string) :
  ends_with_underscore (String "_" tok') = true ->
  no_underscore x = true -> no_underscore y = true ->
  py_in (String "_" tok') (x ++ s ++ y) = py_in (String "_" tok') s.
Proof.
  intros Ht Hx Hy.
  rewrite py_in_after_text, py_in_before_text by assumption. reflexivity.
Qed.

(** ** Counting the occurrences of a token *)


Lemma starts_cons (tok : string) (c : ascii) (a s : string) :
  starts tok (String c a) s
  = ((if prefix tok (String c a ++ s) then 1 else 0) + starts tok a s)%nat.
Proof. reflexivity. Qed.











(** A token that starts with an underscore starts nowhere in a text
    without one. *)
Lemma starts_text (tok' p s : string) :
  no_underscore p = true -> starts (String "_" tok') p s = 0%nat.
Proof.
  induction p as [|c p IH]; intros Hp; [reflexivity|].
  simpl in Hp. apply andb_prop in Hp. destruct Hp as [Hc Hp].
  apply negb_true_iff in Hc.
  rewrite starts_cons. change (String c p ++ s) with (String c (p ++ s)).
  rewrite (prefix_underscore_first _ _ _ Hc), IH by exact Hp. reflexivity.
Qed.




(** ** The static page *)

Section StaticPage.

Context {RT : PyRuntime}.

Lemma movie_grid_step_block (movie_grid : string) (x : string * movie_info) :
  movies.movie_grid_step movie_grid x = movie_grid ++ movie_block x.
Proof.
  destruct x as [title info].
  unfold movies.movie_grid_step, movie_block, poster_image.
  cbn [fst snd].
  destruct (String.eqb (poster_url info) ""),
    (String.eqb (poster_url info) "N/A");
    cbn [negb andb orb]; repeat rewrite append_assoc; reflexivity.
Qed.

Lemma movie_grid_blocks (items : movie_dict) (movie_grid : string) :
  fold_left movies.movie_grid_step items movie_grid
  = movie_grid ++ blocks items.
Proof.
  revert movie_grid. induction items as [|x items IH]; intros movie_grid.
  - simpl. rewrite append_nil_r. reflexivity.
  - cbn [fold_left blocks fold_right].
    rewrite IH, movie_grid_step_block, append_assoc. reflexivity.
Qed.

Lemma render_blocks (template : string) (items : movie_dict) :
  movies.render template items
  = replace_from movies.TEMPLATE_MOVIE_GRID (blocks items)
      (replace_from movies.TEMPLATE_TITLE "My Movie App" template 0) 0.
Proof.
  unfold movies.render. rewrite movie_grid_blocks. reflexivity.
Qed.

Lemma title_text (new a rest : string) :
  no_underscore a = true ->
  replace_from movies.TEMPLATE_TITLE new (a ++ rest) 0
  = a ++ replace_from movies.TEMPLATE_TITLE new rest 0.
Proof. apply replace_from_text. Qed.

Lemma title_text_only (new a : string) :
  no_underscore a = true -> replace_from movies.TEMPLATE_TITLE new a 0 = a.
Proof. apply replace_from_text_only. Qed.

Lemma title_token (new rest : string) :
  replace_from movies.TEMPLATE_TITLE new (movies.TEMPLATE_TITLE ++ rest) 0
  = new ++ replace_from movies.TEMPLATE_TITLE new rest 0.
Proof. apply replace_from_token. Qed.

Lemma grid_text (new a rest : string) :
  no_underscore a = true ->
  replace_from movies.TEMPLATE_MOVIE_GRID new (a ++ rest) 0
  = a ++ replace_from movies.TEMPLATE_MOVIE_GRID new rest 0.
Proof. apply replace_from_text. Qed.

Lemma grid_text_only (new a : string) :
  no_underscore a = true -> replace_from movies.TEMPLATE_MOVIE_GRID new a 0 = a.
Proof. apply replace_from_text_only. Qed.

Lemma grid_token (new rest : string) :
  replace_from movies.TEMPLATE_MOVIE_GRID new
    (movies.TEMPLATE_MOVIE_GRID ++ rest) 0
  = new ++ replace_from movies.TEMPLATE_MOVIE_GRID new rest 0.
Proof. apply replace_from_token. Qed.

(** Title token first, grid token second. *)
Lemma render_title_first (a b c : string) (items : movie_dict) :
  no_underscore a = true -> no_underscore b = true -> no_underscore c = true ->
  movies.render
    (a ++ movies.TEMPLATE_TITLE ++ b ++ movies.TEMPLATE_MOVIE_GRID ++ c) items
  = a ++ "My Movie App" ++ b ++ blocks items ++ c.
Proof.
  intros Ha Hb Hc. rewrite render_blocks.
  rewrite title_text, title_token, title_text by assumption.
  rewrite replace_title_over_grid
    by (apply prefix_needs_underscore; [assumption | reflexivity]).
  rewrite title_text_only by assumption.
  rewrite grid_text by assumption.
  rewrite (grid_text _ "My Movie App") by reflexivity.
  rewrite grid_text, grid_token, grid_text_only by assumption.
  reflexivity.
Qed.

(** Grid token first, title token second. *)
Lemma render_grid_first (a b c : string) (items : movie_dict) :
  no_underscore a = true -> no_underscore b = true -> no_underscore c = true ->
  movies.render
    (a ++ movies.TEMPLATE_MOVIE_GRID ++ b ++ movies.TEMPLATE_TITLE ++ c) items
  = a ++ blocks items ++ b ++ "My Movie App" ++ c.
Proof.
  intros Ha Hb Hc. rewrite render_blocks.
  rewrite title_text by assumption.
  rewrite replace_title_over_grid.
  - rewrite title_text, title_token, title_text_only by assumption.
    rewrite grid_text, grid_token by assumption.
    rewrite grid_text_only; [reflexivity|].
    rewrite !no_underscore_append, Hb, Hc. reflexivity.
  - apply (prefix_single_underscore "TEMPLATE" "ITLE__" b
             ("TEMPLATE_TITLE__" ++ c) "T");
      [reflexivity | assumption | reflexivity].
  - apply (prefix_single_underscore "" "EMPLATE_TITLE__" b
             ("TEMPLATE_TITLE__" ++ c) "T");
      [reflexivity | assumption | reflexivity].
Qed.






End StaticPage.

Lemma token_free_enclosed (x s y : string) :
  no_underscore x = true -> no_underscore y = true ->
  token_free (x ++ s ++ y) = token_free s.
Proof.
  intros Hx Hy. unfold token_free, movies.TEMPLATE_TITLE,
    movies.TEMPLATE_MOVIE_GRID.
  rewrite !py_in_enclosed by (assumption || reflexivity). reflexivity.
Qed.

Section GenerateWebsite.

Context {RT : PyRuntime}.

Lemma generate_website_writes_render (template : string) (t : storage.table) :
  storage.unique_titles t ->
  movies.generate_website storage.Healthy (Some template) t
  = storage.mk_effect
      (Returned (Some (movies.render template (map entry_of_row t))))
      [LF ++ movies.GREEN ++ "  Website was generated successfully."
       ++ movies.RESET;
       "  Open " ++ "_static/index.html" ++ " to view it."] t.
Proof.
  intros Hu. unfold movies.generate_website.
  rewrite bind_list_movies by assumption. reflexivity.
Qed.


End GenerateWebsite.



(** * Further properties of the code *)

(** ** The storage engine: invariant and composition *)

(** X1.  Every table the program can reach from the empty table by calls
    of [add_movie], [delete_movie] and [update_movie], with the engine
    healthy or failing on any of them, has pairwise distinct titles. *)
Theorem reachable_tables_have_unique_titles (t : storage.table) :
  reachable t -> storage.unique_titles t.
Proof.
  induction 1 as [|eng title y r p t _ IH|eng title t _ IH|eng title q t _ IH].
  - constructor.
  - exact (proj1 (unique_titles_preserved eng title y r r p t IH)).
  - exact (proj1 (proj2 (unique_titles_preserved eng title 0 0 0 "" t IH))).
  - exact (proj2 (proj2 (unique_titles_preserved eng title 0 0 q "" t IH))).
Qed.

Lemma reachable_tables_have_unique_titles_witness :
  storage.unique_titles
    (storage.stored
       (storage.add_movie storage.Healthy "Dune" 1984 (63 # 10) ""
          (storage.stored
             (storage.add_movie storage.Healthy "Dune" 2021 (8 # 1) "N/A" [])))).
Proof.
  apply reachable_tables_have_unique_titles.
  apply reach_add. apply reach_add. apply reach_empty.
Defined.

Lemma no_match_keeps_all (title : string) (t : storage.table) :
  rows_titled title t = [] ->
  filter (fun r => negb (String.eqb (storage.row_title r) title)) t = t.
Proof.
  unfold rows_titled. induction t as [|r t IH]; simpl; [reflexivity|].
  destruct (String.eqb (storage.row_title r) title); simpl.
  - discriminate.
  - intros H. rewrite IH by assumption. reflexivity.
Qed.

Lemma no_match_updates_none (title : string) (q : Q) (t : storage.table) :
  rows_titled title t = [] ->
  map (fun r => if String.eqb (storage.row_title r) title
                then storage.set_rating q r else r) t = t.
Proof.
  unfold rows_titled. induction t as [|r t IH]; simpl; [reflexivity|].
  destruct (String.eqb (storage.row_title r) title); simpl.
  - discriminate.
  - intros H. rewrite IH by assumption. reflexivity.
Qed.

Lemma rows_titled_In (title : string) (t : storage.table) :
  rows_titled title t <> [] -> In title (storage.titles t).
Proof.
  intros H. destruct (in_dec string_dec title (storage.titles t)) as [Hin|Hout].
  - exact Hin.
  - exfalso. apply H. apply rows_titled_absent. exact Hout.
Qed.

(** X2.  No writer changes the table silently, on any table and with any
    engine.  [add_movie] either leaves the table as it was or prints the
    added report and appends exactly the new row; [delete_movie] either
    leaves it or prints the deleted report and the table gets shorter;
    [update_movie] either leaves it or prints the updated report for a
    title that is there, and the titles stay the same. *)
Theorem table_changes_are_reported
  (eng : storage.engine) (title : string) (y : Z) (r q : Q) (p : string)
  (t : storage.table) :
  let a := storage.add_movie eng title y r p t in
  let d := storage.delete_movie eng title t in
  let u := storage.update_movie eng title q t in
  (storage.stored a = t \/
   storage.printed a = storage.reports_added title /\
   storage.stored a = (t ++ [storage.mk_row title y r p])%list) /\
  (storage.stored d = t \/
   storage.printed d = storage.reports_deleted title /\
   (List.length (storage.stored d) < List.length t)%nat) /\
  (storage.stored u = t \/
   storage.printed u = storage.reports_updated title /\
   In title (storage.titles t) /\
   storage.titles (storage.stored u) = storage.titles t).
Proof.
  intros a d u. unfold a, d, u.
  destruct eng as [|[m|m|m]]; try (repeat split; left; reflexivity).
  split; [|split].
  - unfold storage.add_movie, storage.execute_insert.
    cbn [storage.row_year storage.row_title].
    destruct (storage.in_int64 y); cbn [negb]; [|left; reflexivity].
    destruct (storage.has_title t title); simpl; [left|right]; auto.
  - unfold_storage. fold (rows_titled title t).
    destruct (rows_titled title t) as [|x l] eqn:E.
    + left. simpl. apply no_match_keeps_all. exact E.
    + right. simpl. split; [reflexivity|].
      pose proof (filter_length
                    (fun r => String.eqb (storage.row_title r) title) t) as H.
      fold (rows_titled title t) in H. rewrite E in H. simpl in H. lia.
  - unfold_storage. fold (rows_titled title t).
    destruct (rows_titled title t) as [|x l] eqn:E.
    + left. simpl. apply no_match_updates_none. exact E.
    + right. simpl. split; [reflexivity|]. split.
      * apply rows_titled_In. rewrite E. discriminate.
      * apply titles_after_update.
Qed.

Lemma titles_without (title : string) (t : storage.table) :
  ~ In title
      (storage.titles
         (filter (fun r => negb (String.eqb (storage.row_title r) title)) t)).
Proof.
  unfold storage.titles. intros H. apply in_map_iff in H.
  destruct H as [r [E Hr]]. apply filter_In in Hr. destruct Hr as [_ Hr].
  rewrite E, String.eqb_refl in Hr. discriminate Hr.
Qed.

(** X3.  Adding a title the table does not hold, with a year the INTEGER
    column can hold, and then deleting it gives back the table exactly as
    it was, with the deleted report. *)
Theorem add_then_delete_restores
  (t : storage.table) (title : string) (y : Z) (r : Q) (p : string) :
  ~ In title (storage.titles t) ->
  storage.in_int64 y = true ->
  storage.delete_movie storage.Healthy title
    (storage.stored (storage.add_movie storage.Healthy title y r p t))
  = storage.mk_effect (Returned tt) (storage.reports_deleted title) t.
Proof.
  intros Hfresh Hfit. rewrite add_movie_fresh by assumption.
  cbn [storage.stored]. unfold_storage.
  fold (rows_titled title (t ++ [storage.mk_row title y r p])%list).
  rewrite (rows_titled_split title t [] (storage.mk_row title y r p))
    by (auto; intros []).
  rewrite (keep_others_split title t [] (storage.mk_row title y r p))
    by (auto; intros []).
  rewrite app_nil_r. reflexivity.
Qed.

Lemma add_then_delete_restores_witness :
  let t := [storage.mk_row "Alien" 1979 (85 # 10) "N/A"] in
  storage.delete_movie storage.Healthy "Dune"
    (storage.stored
       (storage.add_movie storage.Healthy "Dune" 2021 (8 # 1) "" t))
  = storage.mk_effect (Returned tt) ["Movie 'Dune' deleted successfully."] t.
Proof.
  intros t. apply add_then_delete_restores.
  - unfold t. explicit_list.
  - reflexivity.
Defined.

(** X4.  Deleting is idempotent on every table: after one [delete_movie]
    the title is gone, so a second one reports not-found and changes
    nothing more. *)
Theorem delete_movie_twice (t : storage.table) (title : string) :
  let t1 := storage.stored (storage.delete_movie storage.Healthy title t) in
  ~ In title (storage.titles t1) /\
  storage.delete_movie storage.Healthy title t1
  = storage.mk_effect (Returned tt) (storage.reports_NotFound title) t1.
Proof.
  intros t1.
  assert (Hgone : ~ In title (storage.titles t1)).
  { unfold t1. unfold_storage.
    destruct (0 <? _)%nat; simpl; apply titles_without. }
  split; [exact Hgone|].
  unfold_storage. fold (rows_titled title t1).
  rewrite rows_titled_absent, keep_others_absent by assumption. reflexivity.
Qed.

(** X5.  The last update wins: on every table, updating a title's rating
    twice leaves the same table, and prints the same report, as the second
    update alone. *)
Theorem update_movie_last_wins (t : storage.table) (title : string) (q1 q2 : Q) :
  storage.update_movie storage.Healthy title q2
    (storage.stored (storage.update_movie storage.Healthy title q1 t))
  = storage.update_movie storage.Healthy title q2 t.
Proof.
  assert (Hs : storage.stored (storage.update_movie storage.Healthy title q1 t)
               = map (fun r => if String.eqb (storage.row_title r) title
                               then storage.set_rating q1 r else r) t).
  { unfold_storage. destruct (0 <? _)%nat; reflexivity. }
  rewrite Hs. unfold_storage.
  assert (Hm : forall l,
             map (fun r => if String.eqb (storage.row_title r) title
                           then storage.set_rating q2 r else r)
               (map (fun r => if String.eqb (storage.row_title r) title
                              then storage.set_rating q1 r else r) l)
             = map (fun r => if String.eqb (storage.row_title r) title
                             then storage.set_rating q2 r else r) l).
  { intros l. rewrite map_map. apply map_ext. intros r.
    destruct (String.eqb (storage.row_title r) title) eqn:E; simpl.
    - rewrite E. reflexivity.
    - rewrite E. reflexivity. }
  assert (Hc : forall l,
             List.length
               (filter (fun r => String.eqb (storage.row_title r) title)
                  (map (fun r => if String.eqb (storage.row_title r) title
                                 then storage.set_rating q1 r else r) l))
             = List.length
                 (filter (fun r => String.eqb (storage.row_title r) title) l)).
  { induction l as [|r l IH]; simpl; [reflexivity|].
    destruct (String.eqb (storage.row_title r) title) eqn:E; simpl;
      rewrite E; simpl; rewrite IH; reflexivity. }
  rewrite Hm, Hc. reflexivity.
Qed.

Lemma dict_get_Some_In (d : movie_dict) (k : string) (v : movie_info) :
  dict_get d k = Some v -> In (k, v) d.
Proof.
  induction d as [|[k' v'] d IH]; simpl; [discriminate|].
  destruct (String.eqb_spec k' k) as [->|Hne].
  - intros H. injection H as ->. left. reflexivity.
  - intros H. right. apply IH. exact H.
Qed.

Lemma dict_get_None_keys (d : movie_dict) (k : string) :
  dict_get d k = None <-> ~ In k (map fst d).
Proof.
  induction d as [|[k' v'] d IH]; simpl; [tauto|].
  destruct (String.eqb_spec k' k) as [->|Hne].
  - split; [discriminate | intros H; exfalso; auto].
  - rewrite IH. tauto.
Qed.

(** X6.  On a table with distinct titles the dict that [list_movies]
    builds has the titles as its keys, in table order, and looking a title
    up gives the fields of a row exactly when that row is in the table;
    a title is missing from the dict exactly when no row carries it. *)
Theorem list_movies_lookup (t : storage.table) :
  storage.unique_titles t ->
  let d := storage.dict_of_rows t in
  storage.outcome (storage.list_movies storage.Healthy t) = Returned d /\
  map fst d = storage.titles t /\
  (forall title info,
      dict_get d title = Some info <->
      In (storage.mk_row title (year info) (rating info) (poster_url info)) t) /\
  (forall title, dict_get d title = None <-> ~ In title (storage.titles t)).
Proof.
  intros Hu d. unfold d. split; [reflexivity|].
  rewrite dict_of_rows_unique by assumption.
  split; [apply map_fst_entries|]. split.
  - intros title info. split.
    + intros H. apply dict_get_Some_In in H. apply in_map_iff in H.
      destruct H as [[rt ry rr rp] [E Hr]]. unfold entry_of_row in E.
      simpl in E. injection E as <- <-. simpl. exact Hr.
    + intros H. destruct info as [iy ir ip].
      exact (dict_get_entries t (storage.mk_row title iy ir ip) Hu H).
  - intros title. rewrite dict_get_None_keys, map_fst_entries. tauto.
Qed.

Lemma list_movies_lookup_witness :
  let t := [storage.mk_row "Alien" 1979 (85 # 10) "N/A";
            storage.mk_row "Dune" 2021 (8 # 1) ""] in
  dict_get (storage.dict_of_rows t) "Dune" = Some (mk_info 2021 (8 # 1) "") /\
  dict_get (storage.dict_of_rows t) "Heat" = None.
Proof.
  intros t.
  assert (Hu : storage.unique_titles t) by (unfold t; explicit_list).
  destruct (list_movies_lookup t Hu) as (_ & _ & Hsome & Hnone).
  split.
  - apply (Hsome "Dune" (mk_info 2021 (8 # 1) "")). unfold t. explicit_list.
  - apply Hnone. unfold t. explicit_list.
Defined.

(** ** Formatting *)

Lemma length_append (a b : string) :
  String.length (a ++ b) = (String.length a + String.length b)%nat.
Proof.
  induction a as [|c a IH]; simpl; [reflexivity | rewrite IH; reflexivity].
Qed.

Lemma length_str_repeat_char (c : ascii) (n : nat) :
  String.length (str_repeat (String c "") n) = n.
Proof.
  induction n as [|n IH]; simpl; [reflexivity | rewrite IH; reflexivity].
Qed.

Section LineWidth.

Context {RT : PyRuntime}.

(** X7.  A line of [format_movie_line] is 46 characters wide whenever the
    title, the year and the rating leave room for at least three dots;
    otherwise it has exactly three dots and is as much longer as needed.
    With [l] the length of the text before the dots and [v] the length of
    the text after them, the line has [max 46 (l + v + 4)] characters. *)
Theorem format_movie_line_width (title : string) (info : movie_info) :
  let l := (String.length title + String.length (str_int (year info)) + 4)%nat in
  let v := (String.length (str_float (rating info)) + 1)%nat in
  String.length (movies.format_movie_line title info)
  = Nat.max 46 (l + v + 4) /\
  exists dots,
    (3 <= dots)%nat /\
    movies.format_movie_line title info
    = (" " ++ title ++ " (" ++ str_int (year info) ++ ")") ++ " "
      ++ str_repeat "." dots ++ " " ++ str_float (rating info).
Proof.
  intros l v. unfold movies.format_movie_line, movies.len.
  set (label := " " ++ title ++ " (" ++ str_int (year info) ++ ")").
  set (value := " " ++ str_float (rating info)).
  assert (Hl : String.length label = l).
  { unfold label, l. cbn [append String.length].
    rewrite !length_append. cbn [append String.length].
    rewrite !length_append. cbn [String.length]. lia. }
  assert (Hv : String.length value = v).
  { unfold value, v. simpl. lia. }
  set (dots := Z.to_nat
                 (if (45 - Z.of_nat (String.length label)
                      - Z.of_nat (String.length value) <? 3)%Z
                  then 3%Z
                  else (45 - Z.of_nat (String.length label)
                        - Z.of_nat (String.length value))%Z)).
  assert (Hd : dots = Nat.max 3 (45 - l - v)).
  { unfold dots. rewrite Hl, Hv.
    destruct (Z.ltb_spec (45 - Z.of_nat l - Z.of_nat v) 3); lia. }
  split.
  - rewrite !length_append, length_str_repeat_char, Hl, Hv, Hd.
    change (String.length " ") with 1%nat. clearbody l v. lia.
  - exists dots. split; [lia | reflexivity].
Qed.

End LineWidth.

(** ** The prompts *)

Section PromptLoops.

Context {RT : PyRuntime}.

Lemma get_valid_rating_scan (bad inputs : list string) (t : storage.table) :
  Forall (fun line => rating_accepted line = None) bad ->
  movies.get_valid_rating (bad ++ inputs)%list t
  = storage.mk_effect
      (storage.outcome (movies.get_valid_rating inputs t))
      (map rating_complaint bad
         ++ storage.printed (movies.get_valid_rating inputs t))%list
      (storage.stored (movies.get_valid_rating inputs t)).
Proof.
  induction 1 as [|line bad Hline _ IH]; simpl.
  - destruct (movies.get_valid_rating inputs t). reflexivity.
  - unfold rating_accepted, rating_complaint in *.
    destruct (float_of_str line) as [x|].
    + destruct (Qle_bool movies.MIN_RATING x && Qle_bool x movies.MAX_RATING);
        [discriminate Hline|].
      rewrite print_then, IH. reflexivity.
    + rewrite print_then, IH. reflexivity.
Qed.

Lemma get_valid_rating_accepts (line : string) (rest : list string) (r : Q)
  (t : storage.table) :
  rating_accepted line = Some r ->
  movies.get_valid_rating (line :: rest) t
  = storage.mk_effect (Returned (r, rest)) [] t.
Proof.
  unfold rating_accepted. simpl. destruct (float_of_str line) as [x|];
    [|discriminate].
  destruct (Qle_bool movies.MIN_RATING x && Qle_bool x movies.MAX_RATING);
    [|discriminate].
  intros H. injection H as ->. reflexivity.
Qed.

Lemma get_valid_year_scan (bad inputs : list string) (t : storage.table) :
  Forall (fun line => year_accepted line = None) bad ->
  movies.get_valid_year (bad ++ inputs)%list t
  = storage.mk_effect
      (storage.outcome (movies.get_valid_year inputs t))
      (map year_complaint bad
         ++ storage.printed (movies.get_valid_year inputs t))%list
      (storage.stored (movies.get_valid_year inputs t)).
Proof.
  induction 1 as [|line bad Hline _ IH]; simpl.
  - destruct (movies.get_valid_year inputs t). reflexivity.
  - unfold year_accepted, year_complaint in *.
    destruct (int_of_str line) as [x|].
    + destruct ((movies.MIN_YEAR <=? x) && (x <=? movies.MAX_YEAR))%Z;
        [discriminate Hline|].
      rewrite print_then, IH. reflexivity.
    + rewrite print_then, IH. reflexivity.
Qed.

Lemma get_valid_year_accepts (line : string) (rest : list string) (y : Z)
  (t : storage.table) :
  year_accepted line = Some y ->
  movies.get_valid_year (line :: rest) t
  = storage.mk_effect (Returned (y, rest)) [] t.
Proof.
  unfold year_accepted. simpl. destruct (int_of_str line) as [x|];
    [|discriminate].
  destruct ((movies.MIN_YEAR <=? x) && (x <=? movies.MAX_YEAR))%Z;
    [|discriminate].
  intros H. injection H as ->. reflexivity.
Qed.

(** X8.  Each prompt skips the lines it turns down, printing one complaint
    per line (out of range, or not a number), and returns the first line it
    accepts together with the lines typed after it, the table untouched.
    When every line is turned down the input ends and [EOFError] escapes
    after the same complaints. *)
Theorem prompts_return_first_accepted_line
  (bad_r bad_y rest : list string) (line_r line_y : string) (r : Q) (y : Z)
  (t : storage.table) :
  Forall (fun line => rating_accepted line = None) bad_r ->
  rating_accepted line_r = Some r ->
  Forall (fun line => year_accepted line = None) bad_y ->
  year_accepted line_y = Some y ->
  movies.get_valid_rating (bad_r ++ line_r :: rest)%list t
  = storage.mk_effect (Returned (r, rest)) (map rating_complaint bad_r) t /\
  movies.get_valid_rating bad_r t
  = storage.mk_effect (Raised EOFError) (map rating_complaint bad_r) t /\
  movies.get_valid_year (bad_y ++ line_y :: rest)%list t
  = storage.mk_effect (Returned (y, rest)) (map year_complaint bad_y) t /\
  movies.get_valid_year bad_y t
  = storage.mk_effect (Raised EOFError) (map year_complaint bad_y) t.
Proof.
  intros Hbr Hr Hby Hy. repeat split.
  - rewrite get_valid_rating_scan by assumption.
    rewrite (get_valid_rating_accepts _ _ _ _ Hr). simpl.
    rewrite app_nil_r. reflexivity.
  - rewrite <- (app_nil_r bad_r) at 1.
    rewrite get_valid_rating_scan by assumption. simpl.
    rewrite app_nil_r. reflexivity.
  - rewrite get_valid_year_scan by assumption.
    rewrite (get_valid_year_accepts _ _ _ _ Hy). simpl.
    rewrite app_nil_r. reflexivity.
  - rewrite <- (app_nil_r bad_y) at 1.
    rewrite get_valid_year_scan by assumption. simpl.
    rewrite app_nil_r. reflexivity.
Qed.

End PromptLoops.

Lemma prompts_return_first_accepted_line_witness :
  @movies.get_valid_rating sample_runtime ["eleven"; "11"; "7"; "x"] []
  = storage.mk_effect (Returned (7 # 1, ["x"]))
      [movies.RED ++ "  Please enter a valid number." ++ movies.RESET;
       movies.RED ++ "  Rating must be between 0 and 10." ++ movies.RESET] [] /\
  @movies.get_valid_year sample_runtime ["1500"; "1999"; "x"] []
  = storage.mk_effect (Returned (1999%Z, ["x"]))
      [movies.RED ++ "  Year must be between 1888 and 2026." ++ movies.RESET] [].
Proof.
  destruct (@prompts_return_first_accepted_line sample_runtime
              ["eleven"; "11"] ["1500"] ["x"] "7" "1999" (7 # 1) 1999%Z [])
    as (Hr & _ & Hy & _).
  - repeat constructor.
  - reflexivity.
  - repeat constructor.
  - reflexivity.
  - split; [exact Hr | exact Hy].
Defined.

Lemma bind_value {A B : Type} (m : M A) (k : A -> M B) t a p t' :
  m t = storage.mk_effect (Returned a) p t' ->
  bind m k t
  = storage.mk_effect (storage.outcome (k a t'))
      (p ++ storage.printed (k a t'))%list (storage.stored (k a t')).
Proof.
  intros H. unfold bind. rewrite H. reflexivity.
Qed.

Lemma bind_raise_value {A B : Type} (m : M A) (k : A -> M B) t e p t' :
  m t = storage.mk_effect (Raised e) p t' ->
  bind m k t = storage.mk_effect (Raised e) p t'.
Proof.
  intros H. unfold bind. rewrite H. reflexivity.
Qed.

(** ** Adding a movie *)

Lemma response_not_True {A : Type} (v : option string) (a b : A) :
  v <> Some "True" ->
  match v with
  | Some "True" => a
  | _ => b
  end = b.
Proof.
  intros Hv. destruct v as [s|]; [|reflexivity].
  destruct (String.eqb_spec s "True") as [->|Hne]; [congruence|].
  clear Hv.
  repeat match goal with
         | |- context [match ?x with _ => _ end] =>
             is_var x; destruct x; try reflexivity
         end.
  exfalso. apply Hne. reflexivity.
Qed.

Section AddMovies.

Context {RT : PyRuntime}.

Lemma fetch_fails_closed (API_KEY : string)
  (http : string -> movies.http_outcome) (title : string) (t : storage.table) :
  lookup_fails API_KEY http title ->
  storage.outcome (movies.fetch_movie_data API_KEY http title t)
  = Returned None.
Proof.
  unfold movies.fetch_movie_data.
  intros [->|[[m Hm]|[data [Hd Hr]]]].
  - reflexivity.
  - destruct (String.eqb API_KEY ""); [reflexivity|]. rewrite Hm. reflexivity.
  - destruct (String.eqb API_KEY ""); [reflexivity|]. rewrite Hd.
    rewrite (response_not_True _ _ _ Hr). reflexivity.
Qed.

(** A year the prompt accepts fits the INTEGER column. *)
Lemma year_accepted_fits (line : string) (y : Z) :
  year_accepted line = Some y -> storage.in_int64 y = true.
Proof.
  unfold year_accepted. destruct (int_of_str line) as [x|]; [|discriminate].
  destruct ((movies.MIN_YEAR <=? x) && (x <=? movies.MAX_YEAR))%Z eqn:E;
    [|discriminate].
  intros H. injection H as <-. apply year_in_bounds_fits.
  apply andb_prop in E. destruct E as [E1 E2]. lia.
Qed.

(** X9.  When the lookup comes back empty-handed, for lack of an API key,
    through a request error or through a negative answer, [add_movies]
    does not raise: it takes the year and the rating from the prompts and
    stores the typed title, stripped, with them and an empty poster. *)
Theorem add_movies_manual_fallback
  (API_KEY : string) (http : string -> movies.http_outcome)
  (line line_y line_r : string) (bad_y bad_r rest : list string)
  (y : Z) (r : Q) (t : storage.table) :
  py_strip line <> "" ->
  lookup_fails API_KEY http (py_strip line) ->
  Forall (fun l => year_accepted l = None) bad_y ->
  year_accepted line_y = Some y ->
  Forall (fun l => rating_accepted l = None) bad_r ->
  rating_accepted line_r = Some r ->
  ~ In (py_strip line) (storage.titles t) ->
  let e := movies.add_movies storage.Healthy API_KEY http
             (line :: bad_y ++ line_y :: bad_r ++ line_r :: rest)%list t in
  storage.outcome e = Returned tt /\
  storage.stored e = (t ++ [storage.mk_row (py_strip line) y r ""])%list.
Proof.
  intros Hne Hfail Hby Hy Hbr Hr Hfresh e.
  pose proof (fetch_fails_closed _ _ _ t Hfail) as Hfetch.
  assert (He : storage.outcome e = Returned tt /\
               storage.stored e
               = (t ++ [storage.mk_row (py_strip line) y r ""])%list).
  { unfold e, movies.add_movies.
    rewrite print_then. apply String.eqb_neq in Hne. rewrite Hne.
    rewrite print_then.
    rewrite (bind_returned _ _ _ _ Hfetch).
    rewrite read_only_fetch_movie_data.
    rewrite print_then.
    rewrite (bind_value _ _ t (y, (bad_r ++ line_r :: rest)%list)
               (map year_complaint bad_y) t).
    2:{ rewrite get_valid_year_scan by assumption.
        rewrite (get_valid_year_accepts _ _ _ _ Hy). simpl.
        rewrite app_nil_r. reflexivity. }
    cbn [fst snd].
    rewrite (bind_value _ _ t (r, rest) (map rating_complaint bad_r) t).
    2:{ rewrite get_valid_rating_scan by assumption.
        rewrite (get_valid_rating_accepts _ _ _ _ Hr). simpl.
        rewrite app_nil_r. reflexivity. }
    cbn [fst snd].
    rewrite add_movie_fresh
      by (first [assumption | exact (year_accepted_fits _ _ Hy)]).
    cbn [storage.outcome storage.printed storage.stored].
    split; reflexivity. }
  exact He.
Qed.

(** X10.  When the metadata service answers "Response": "True" but the
    first four characters of its year are not an integer, or its rating is
    not a float, [ValueError] escapes from [add_movies], whatever the
    engine does, and nothing is stored. *)
Theorem add_movies_unparsable_answer_raises
  (eng : storage.engine) (API_KEY : string)
  (http : string -> movies.http_outcome) (line : string)
  (inputs : list string) (data : list (string * string)) (t : storage.table) :
  py_strip line <> "" ->
  API_KEY <> "" ->
  http (py_strip line) = movies.JsonObject data ->
  movies.json_get data "Response" = Some "True" ->
  int_of_str (substring 0 4 (movies.json_get_default data "Year" "0")) = None \/
  float_of_str (movies.json_get_default data "imdbRating" "0") = None ->
  let e := movies.add_movies eng API_KEY http (line :: inputs) t in
  storage.outcome e = Raised ValueError /\ storage.stored e = t.
Proof.
  intros Hne Hkey Hhttp Hresp Hbad e.
  assert (Hfetch : movies.fetch_movie_data API_KEY http (py_strip line) t
                   = storage.mk_effect (Raised ValueError) [] t).
  { unfold movies.fetch_movie_data.
    apply String.eqb_neq in Hkey. rewrite Hkey, Hhttp, Hresp.
    destruct Hbad as [Hy|Hr].
    - rewrite Hy. reflexivity.
    - rewrite Hr. destruct (int_of_str _); reflexivity. }
  unfold e, movies.add_movies.
  rewrite print_then. apply String.eqb_neq in Hne. rewrite Hne.
  rewrite print_then.
  rewrite (bind_raise_value _ _ _ _ _ _ Hfetch).
  split; reflexivity.
Qed.

(** X11.  A typed title that is blank stops [add_movies], [del_movies] and
    [update_movies] before they touch the metadata service or the engine:
    whatever the engine would do, they print the heading and the
    empty-title complaint, return, and leave the table as it is.  A blank
    search line makes [search_movie] return without printing and without
    querying the engine. *)
Theorem blank_input_touches_nothing
  (eng : storage.engine) (API_KEY : string)
  (http : string -> movies.http_outcome) (line : string)
  (inputs : list string) (t : storage.table) :
  py_strip line = "" ->
  movies.add_movies eng API_KEY http (line :: inputs) t
  = storage.mk_effect (Returned tt)
      [LF ++ movies.THEME ++ "  ADD MOVIE" ++ movies.RESET;
       movies.RED ++ "  Title cannot be empty." ++ movies.RESET] t /\
  movies.del_movies eng (line :: inputs) t
  = storage.mk_effect (Returned tt)
      [LF ++ movies.THEME ++ "  DELETE MOVIE" ++ movies.RESET;
       movies.RED ++ "  Title cannot be empty." ++ movies.RESET] t /\
  movies.update_movies eng (line :: inputs) t
  = storage.mk_effect (Returned tt)
      [LF ++ movies.THEME ++ "  UPDATE MOVIE" ++ movies.RESET;
       movies.RED ++ "  Title cannot be empty." ++ movies.RESET] t /\
  movies.search_movie eng line t = storage.mk_effect (Returned tt) [] t.
Proof.
  intros H.
  unfold movies.add_movies, movies.del_movies, movies.update_movies,
    movies.search_movie.
  rewrite !print_then, H. repeat split; reflexivity.
Qed.

End AddMovies.

Lemma add_movies_manual_fallback_witness :
  let t := [storage.mk_row "Alien" 1979 (85 # 10) "N/A"] in
  let e := @movies.add_movies sample_runtime storage.Healthy ""
             (fun _ => movies.RequestException "unreachable")
             [" Heat "; "1800"; "1995"; "ten"; "8"; "extra"] t in
  storage.outcome e = Returned tt /\
  storage.stored e
  = [storage.mk_row "Alien" 1979 (85 # 10) "N/A";
     storage.mk_row "Heat" 1995 (8 # 1) ""].
Proof.
  intros t.
  apply (@add_movies_manual_fallback sample_runtime ""
           (fun _ => movies.RequestException "unreachable")
           " Heat " "1995" "8" ["1800"] ["ten"] ["extra"] 1995%Z (8 # 1) t).
  - vm_compute. discriminate.
  - left. reflexivity.
  - repeat constructor.
  - reflexivity.
  - repeat constructor.
  - reflexivity.
  - vm_compute. intuition discriminate.
Defined.

Lemma add_movies_unparsable_answer_raises_witness :
  let http := fun _ : string =>
    movies.JsonObject [("Title", "Heat"); ("Year", "1995");
                       ("imdbRating", "N/A"); ("Response", "True")] in
  let e := @movies.add_movies sample_runtime storage.Healthy "key" http
             ["heat"] [] in
  storage.outcome e = Raised ValueError /\ storage.stored e = [].
Proof.
  intros http.
  apply (@add_movies_unparsable_answer_raises sample_runtime storage.Healthy
           "key" http "heat" []
           [("Title", "Heat"); ("Year", "1995");
            ("imdbRating", "N/A"); ("Response", "True")] []).
  - vm_compute. discriminate.
  - discriminate.
  - reflexivity.
  - reflexivity.
  - right. reflexivity.
Defined.

Lemma blank_input_touches_nothing_witness :
  let t := [storage.mk_row "Alien" 1979 (85 # 10) "N/A"] in
  storage.stored
    (movies.del_movies (storage.Failing (DatabaseError "malformed")) ["   "] t)
  = t /\
  @movies.search_movie sample_runtime
    (storage.Failing (DatabaseError "malformed")) "  " t
  = storage.mk_effect (Returned tt) [] t.
Proof.
  intros t.
  destruct (@blank_input_touches_nothing sample_runtime
              (storage.Failing (DatabaseError "malformed")) ""
              (fun _ => movies.RequestException "") "   " [] t eq_refl)
    as (_ & Hdel & _ & _).
  destruct (@blank_input_touches_nothing sample_runtime
              (storage.Failing (DatabaseError "malformed")) ""
              (fun _ => movies.RequestException "") "  " [] t eq_refl)
    as (_ & _ & _ & Hsearch).
  split.
  - rewrite Hdel. reflexivity.
  - exact Hsearch.
Defined.

(** ** The views when the engine fails *)

Section FailingEngine.

Context {RT : PyRuntime}.

Lemma bind_list_movies_operational {B : Type} (k : movie_dict -> M B)
  (m : string) (t : storage.table) :
  bind (storage.list_movies (storage.Failing (OperationalError m))) k t
  = storage.mk_effect (storage.outcome (k [] t))
      (("Database error: " ++ m) :: storage.printed (k [] t))
      (storage.stored (k [] t)).
Proof.
  reflexivity.
Qed.

(** X12.  When the engine raises [OperationalError] no view raises and no
    view touches the table: each prints the database error and then goes on
    exactly as it does for an empty catalogue.  The listing, the statistics
    and the sorted view print their no-movies line, a search prints its
    no-match line, and [generate_website] still writes a page, with the
    title filled in and an empty grid, and reports success. *)
Theorem views_treat_operational_error_as_empty
  (m line : string) (a b c : string) (t : storage.table) :
  let eng := storage.Failing (OperationalError m) in
  let error_line := "Database error: " ++ m in
  movies.list_movies eng t
  = storage.mk_effect (Returned tt)
      [error_line;
       LF ++ movies.RED ++ "  No movies in database yet." ++ movies.RESET] t /\
  movies.stats_movies eng t
  = storage.mk_effect (Returned tt)
      [error_line;
       LF ++ movies.RED ++ "  No movies to show stats for." ++ movies.RESET] t /\
  movies.movies_sorted_by_rating eng t
  = storage.mk_effect (Returned tt)
      [error_line;
       LF ++ movies.RED ++ "  No movies to sort." ++ movies.RESET] t /\
  (py_lower (py_strip line) <> "" ->
   movies.search_movie eng line t
   = storage.mk_effect (Returned tt)
       [error_line;
        movies.RED ++ "  No movies found matching '" ++ py_lower (py_strip line)
        ++ "'." ++ movies.RESET] t) /\
  (no_underscore a = true -> no_underscore b = true ->
   no_underscore c = true ->
   movies.generate_website eng
     (Some (a ++ movies.TEMPLATE_TITLE ++ b ++ movies.TEMPLATE_MOVIE_GRID ++ c)) t
   = storage.mk_effect (Returned (Some (a ++ "My Movie App" ++ b ++ c)))
       [error_line;
        LF ++ movies.GREEN ++ "  Website was generated successfully."
        ++ movies.RESET;
        "  Open " ++ "_static/index.html" ++ " to view it."] t).
Proof.
  intros eng error_line. unfold eng.
  split; [reflexivity|]. split; [reflexivity|]. split; [reflexivity|]. split.
  - intros Hq. unfold movies.search_movie.
    apply String.eqb_neq in Hq. rewrite Hq. reflexivity.
  - intros Ha Hb Hc. unfold movies.generate_website.
    rewrite bind_list_movies_operational.
    rewrite !print_then.
    cbn [storage.outcome storage.printed storage.stored ret].
    rewrite render_title_first by assumption. reflexivity.
Qed.

(** X13.  An engine error of any class other than [OperationalError] is
    caught nowhere: [delete_movie] and [update_movie] let it escape, and
    so does every view that queries the engine, without printing and
    without touching the table. *)
Theorem other_engine_errors_escape
  (e : dbapi_error) (title line : string) (q : Q)
  (template_file : option string) (t : storage.table) :
  (forall m, e <> OperationalError m) ->
  let eng := storage.Failing e in
  storage.delete_movie eng title t
  = storage.mk_effect (Raised (DBAPIError e)) [] t /\
  storage.update_movie eng title q t
  = storage.mk_effect (Raised (DBAPIError e)) [] t /\
  movies.list_movies eng t = storage.mk_effect (Raised (DBAPIError e)) [] t /\
  movies.stats_movies eng t = storage.mk_effect (Raised (DBAPIError e)) [] t /\
  movies.movies_sorted_by_rating eng t
  = storage.mk_effect (Raised (DBAPIError e)) [] t /\
  movies.generate_website eng template_file t
  = storage.mk_effect (Raised (DBAPIError e)) [] t /\
  (py_lower (py_strip line) <> "" ->
   movies.search_movie eng line t
   = storage.mk_effect (Raised (DBAPIError e)) [] t).
Proof.
  intros He eng. unfold eng.
  destruct e as [m|m|m]; [|exfalso; exact (He m eq_refl)|];
    (do 6 (split; [reflexivity|]));
    intros Hq; unfold movies.search_movie;
    apply String.eqb_neq in Hq; rewrite Hq; reflexivity.
Qed.

End FailingEngine.

Lemma other_engine_errors_escape_witness :
  let e := DatabaseError "database disk image is malformed" in
  let t := [storage.mk_row "Alien" 1979 (85 # 10) "N/A"] in
  @movies.stats_movies sample_runtime (storage.Failing e) t
  = storage.mk_effect (Raised (DBAPIError e)) [] t /\
  storage.delete_movie (storage.Failing e) "Alien" t
  = storage.mk_effect (Raised (DBAPIError e)) [] t.
Proof.
  intros e t.
  destruct (@other_engine_errors_escape sample_runtime e "Alien" "x" 0 None t)
    as (Hdel & _ & _ & Hstats & _).
  - intros m. discriminate.
  - split; [exact Hstats | exact Hdel].
Defined.

(** ** Statistics and the sorted view together *)

Lemma first_maximum_upper {A : Type} (key : A -> Q) (m : A) (l : list A) :
  first_maximum key m l -> forall x, In x l -> (key x <= key m)%Q.
Proof.
  intros (l1 & l2 & -> & H1 & H2) x Hx.
  apply in_app_or in Hx. destruct Hx as [Hx|[<-|Hx]].
  - apply Qlt_le_weak. auto.
  - apply Qle_refl.
  - auto.
Qed.

Lemma first_minimum_lower {A : Type} (key : A -> Q) (m : A) (l : list A) :
  first_minimum key m l -> forall x, In x l -> (key m <= key x)%Q.
Proof.
  intros (l1 & l2 & -> & H1 & H2) x Hx.
  apply in_app_or in Hx. destruct Hx as [Hx|[<-|Hx]].
  - apply Qlt_le_weak. auto.
  - apply Qle_refl.
  - auto.
Qed.

Lemma Qlt_bool_intro (a b : Q) : (a < b)%Q -> Qlt_bool a b = true.
Proof.
  intros H. destruct (Qlt_bool a b) eqn:E; [reflexivity|].
  apply Qlt_bool_false in E. exfalso. exact (Qlt_not_le _ _ H E).
Qed.

Lemma Qlt_bool_refute (a b : Q) : (b <= a)%Q -> Qlt_bool a b = false.
Proof.
  intros H. destruct (Qlt_bool a b) eqn:E; [|reflexivity].
  apply Qlt_bool_true in E. exfalso. exact (Qlt_not_le _ _ E H).
Qed.

Section HeadOfSortedView.

Context {A : Type} (key : A -> Q).

Lemma py_max_by_above_start (b : A) (rest : list A) :
  (key b <= key (py_max_by key b rest))%Q.
Proof.
  apply (first_maximum_upper key _ (b :: rest)).
  - apply py_max_by_first_maximum.
  - left. reflexivity.
Qed.

(** [max] computed from the right: the first item stays unless the best of
    the others is strictly better. *)
Lemma py_max_by_from_right (rest : list A) (b x : A) :
  py_max_by key b (x :: rest)
  = if Qlt_bool (key b) (key (py_max_by key x rest))
    then py_max_by key x rest else b.
Proof.
  revert b x. induction rest as [|z rest IH]; intros b x; [reflexivity|].
  change (py_max_by key b (x :: z :: rest))
    with (if Qlt_bool (key b) (key x) then py_max_by key x (z :: rest)
          else py_max_by key b (z :: rest)).
  destruct (Qlt_bool (key b) (key x)) eqn:Ebx.
  - apply Qlt_bool_true in Ebx.
    rewrite Qlt_bool_intro; [reflexivity|].
    apply Qlt_le_trans with (key x); [exact Ebx|].
    apply py_max_by_above_start.
  - apply Qlt_bool_false in Ebx.
    rewrite (IH b z), (IH x z).
    destruct (Qlt_bool (key b) (key (py_max_by key z rest))) eqn:Ebm.
    + apply Qlt_bool_true in Ebm.
      rewrite (Qlt_bool_intro (key x));
        [|apply Qle_lt_trans with (key b); assumption].
      rewrite (Qlt_bool_intro _ _ Ebm). reflexivity.
    + apply Qlt_bool_false in Ebm.
      destruct (Qlt_bool (key x) (key (py_max_by key z rest)));
        rewrite Qlt_bool_refute; auto.
Qed.

Lemma py_sorted_reverse_head (x : A) (l : list A) :
  exists tail, py_sorted_reverse key (x :: l) = py_max_by key x l :: tail.
Proof.
  revert x. induction l as [|y l IH]; intros x.
  - exists []. reflexivity.
  - destruct (IH y) as [tail Ht].
    change (py_sorted_reverse key (x :: y :: l))
      with (insert_desc key x (py_sorted_reverse key (y :: l))).
    rewrite Ht, py_max_by_from_right. cbn [insert_desc].
    destruct (Qlt_bool (key x) (key (py_max_by key y l))).
    + exists (insert_desc key x tail). reflexivity.
    + exists (py_max_by key y l :: tail). reflexivity.
Qed.

Lemma descending_last (init : list A) (x : A) :
  descending key (init ++ [x])%list ->
  forall y, In y init -> (key x <= key y)%Q.
Proof.
  unfold descending. induction init as [|z init IH]; intros Hs y Hy;
    [contradiction|].
  simpl in Hs. inversion Hs as [|? ? Hs' Hz]; subst.
  destruct Hy as [<-|Hy].
  - rewrite Forall_forall in Hz. apply Hz. apply in_or_app. right.
    left. reflexivity.
  - apply IH; assumption.
Qed.

End HeadOfSortedView.

(** X15.  The two views agree on the best movie: the sorted view of a
    non-empty catalogue starts with exactly the record that the statistics
    name as best.  It ends with a record whose rating equals that of the
    record named as worst. *)
Theorem sorted_view_starts_with_best
  (first : string * movie_info) (rest : movie_dict) :
  let sorted_movies := py_sorted_reverse movies.rating_key (first :: rest) in
  let best := py_max_by movies.rating_key first rest in
  let worst := py_min_by movies.rating_key first rest in
  (exists tail, sorted_movies = best :: tail) /\
  (exists init final,
      sorted_movies = (init ++ [final])%list /\
      (movies.rating_key final == movies.rating_key worst)%Q).
Proof.
  intros sorted_movies best worst. split.
  - apply py_sorted_reverse_head.
  - pose proof (py_sorted_reverse_perm movies.rating_key (first :: rest)) as Hp.
    pose proof (py_sorted_reverse_descending movies.rating_key (first :: rest))
      as Hd.
    fold sorted_movies in Hp, Hd.
    destruct (exists_last (l := sorted_movies)) as (init & final & E).
    { intros H. rewrite H in Hp. apply Permutation_nil in Hp. discriminate Hp. }
    exists init, final. split; [exact E|].
    rewrite E in Hp, Hd.
    pose proof (py_min_by_first_minimum movies.rating_key first rest) as Hmin.
    fold worst in Hmin.
    apply Qle_antisym.
    + assert (Hw : In worst (init ++ [final])%list).
      { apply (Permutation_in _ (Permutation_sym Hp)).
        destruct Hmin as (l1 & l2 & -> & _). apply in_or_app. right.
        left. reflexivity. }
      apply in_app_or in Hw. destruct Hw as [Hw|[<-|[]]].
      * exact (descending_last movies.rating_key init final Hd worst Hw).
      * apply Qle_refl.
    + apply (first_minimum_lower _ _ _ Hmin).
      apply (Permutation_in _ Hp). apply in_or_app. right. left. reflexivity.
Qed.

(** ** The listing, the search and the page once more *)

Lemma replace_from_absent (old new s : string) :
  py_in old s = false -> replace_from old new s 0 = s.
Proof.
  induction s as [|c s IH]; [reflexivity|].
  cbn [py_in replace_from]. intros H. apply orb_false_elim in H.
  destruct H as [Hp Hs]. rewrite Hp, IH by assumption. reflexivity.
Qed.

Section MoreViews.

Context {RT : PyRuntime}.

(** X16.  On a table with distinct titles the listing returns without
    touching the table.  For an empty table it prints the no-movies line;
    otherwise it prints a heading with the number of rows and then one
    line per row, in table order. *)
Theorem list_movies_prints_every_record (t : storage.table) :
  storage.unique_titles t ->
  let e := movies.list_movies storage.Healthy t in
  storage.outcome e = Returned tt /\
  storage.stored e = t /\
  (t = [] ->
   storage.printed e
   = [LF ++ movies.RED ++ "  No movies in database yet." ++ movies.RESET]) /\
  (t <> [] ->
   storage.printed e
   = (LF ++ movies.THEME ++ "  " ++ str_int (Z.of_nat (List.length t))
      ++ " movies in total:" ++ movies.RESET ++ LF)
       :: map listing_line (map entry_of_row t)).
Proof.
  intros Hu e. unfold e, movies.list_movies.
  rewrite bind_list_movies by assumption.
  destruct t as [|r t].
  - repeat split; try reflexivity. intros H. congruence.
  - cbn [map]. rewrite print_then.
    rewrite (for_each_print listing_line)
      by (intros [title info]; reflexivity).
    cbn [storage.outcome storage.printed storage.stored].
    split; [reflexivity|]. split; [reflexivity|].
    split; [discriminate|]. intros _.
    cbn [List.length map]. rewrite !length_map. reflexivity.
Qed.

Lemma search_movie_effect (line : string) (t : storage.table) :
  storage.unique_titles t ->
  py_lower (py_strip line) <> "" ->
  movies.search_movie storage.Healthy line t
  = match matches (py_lower (py_strip line)) (map entry_of_row t) with
    | [] => storage.mk_effect (Returned tt)
              [movies.RED ++ "  No movies found matching '"
               ++ py_lower (py_strip line) ++ "'." ++ movies.RESET] t
    | ms => storage.mk_effect (Returned tt) (map match_line ms) t
    end.
Proof.
  intros Hu Hq. unfold movies.search_movie.
  apply String.eqb_neq in Hq. rewrite Hq.
  rewrite bind_list_movies by assumption.
  unfold bind. rewrite search_loop_prints.
  cbn [storage.outcome storage.printed storage.stored orb].
  destruct (matches _ _) as [|x l]; simpl; [reflexivity|].
  rewrite app_nil_r. reflexivity.
Qed.

(** X17.  A stored movie is found by typing its title: when the typed
    line, stripped and lower-cased, equals the lower-cased title of a row,
    whatever the letter case typed, [search_movie] prints the line of that
    row. *)
Theorem search_finds_typed_title
  (t : storage.table) (r : storage.row) (line : string) :
  storage.unique_titles t ->
  In r t ->
  storage.row_title r <> "" ->
  py_lower (py_strip line) = py_lower (storage.row_title r) ->
  In (match_line (entry_of_row r))
    (storage.printed (movies.search_movie storage.Healthy line t)).
Proof.
  intros Hu Hr Hne Hq.
  assert (Hq' : py_lower (py_strip line) <> "").
  { rewrite Hq. destruct (storage.row_title r); [congruence | discriminate]. }
  rewrite search_movie_effect by assumption.
  assert (Hm : In (entry_of_row r)
                 (matches (py_lower (py_strip line)) (map entry_of_row t))).
  { unfold matches. apply filter_In. split.
    - apply in_map. exact Hr.
    - rewrite Hq. apply py_in_contains. exists "", "".
      simpl. rewrite append_nil_r. reflexivity. }
  destruct (matches _ _) as [|x l]; [contradiction|].
  cbn [storage.printed]. apply in_map. exact Hm.
Qed.

(** X18.  Without the template file [generate_website] writes nothing: it
    prints that the template was not found and returns.  With a template
    that holds neither token it writes the template unchanged, whatever
    the records are. *)
Theorem generate_website_without_template_or_tokens
  (template : string) (t : storage.table) :
  storage.unique_titles t ->
  movies.generate_website storage.Healthy None t
  = storage.mk_effect (Returned None)
      [movies.RED ++ "  Template not found: " ++ "_static/index_template.html"
       ++ movies.RESET] t /\
  (token_free template = true ->
   storage.outcome
     (movies.generate_website storage.Healthy (Some template) t)
   = Returned (Some template)).
Proof.
  intros Hu. split.
  - unfold movies.generate_website.
    rewrite bind_list_movies by assumption. reflexivity.
  - intros Hfree. rewrite generate_website_writes_render by assumption.
    cbn [storage.outcome]. rewrite render_blocks.
    unfold token_free in Hfree. apply andb_prop in Hfree.
    destruct Hfree as [Ht Hg].
    apply negb_true_iff in Ht. apply negb_true_iff in Hg.
    rewrite (replace_from_absent _ _ _ Ht), (replace_from_absent _ _ _ Hg).
    reflexivity.
Qed.

(** X19.  [update_movies] can only store a rating inside the configured
    bounds: whatever is typed and whatever the engine does, it either
    leaves the table as it was or updates the stripped title with a rating
    between [MIN_RATING] and [MAX_RATING]. *)
Theorem update_movies_stores_only_valid_ratings
  (eng : storage.engine) (line : string) (inputs : list string)
  (t : storage.table) :
  let e := movies.update_movies eng (line :: inputs) t in
  storage.stored e = t \/
  exists r,
    (movies.MIN_RATING <= r /\ r <= movies.MAX_RATING)%Q /\
    storage.stored e
    = storage.stored (storage.update_movie eng (py_strip line) r t).
Proof.
  intros e. unfold e, movies.update_movies.
  rewrite print_then. cbn [storage.stored].
  destruct (String.eqb (py_strip line) ""); [left; reflexivity|].
  destruct (storage.outcome (movies.get_valid_rating inputs t))
    as [[r rest]|ex] eqn:Hr.
  - right. exists r. split.
    + exact (get_valid_rating_in_bounds _ _ _ _ Hr).
    + rewrite (bind_returned _ _ _ _ Hr). cbn [storage.stored fst].
      rewrite read_only_get_valid_rating. reflexivity.
  - left. rewrite (bind_raised _ _ _ _ Hr). cbn [storage.stored].
    apply read_only_get_valid_rating.
Qed.

End MoreViews.

Lemma list_movies_prints_every_record_witness :
  let t := [storage.mk_row "Alien" 1979 (85 # 10) "N/A";
            storage.mk_row "Dune" 2021 (8 # 1) ""] in
  storage.printed (@movies.list_movies sample_runtime storage.Healthy t)
  = [LF ++ movies.THEME ++ "  2 movies in total:" ++ movies.RESET ++ LF;
     @listing_line sample_runtime ("Alien", mk_info 1979 (85 # 10) "N/A");
     @listing_line sample_runtime ("Dune", mk_info 2021 (8 # 1) "")].
Proof.
  intros t.
  assert (Hu : storage.unique_titles t) by (unfold t; explicit_list).
  destruct (@list_movies_prints_every_record sample_runtime t Hu)
    as (_ & _ & _ & Hsome).
  apply Hsome. discriminate.
Defined.

Lemma search_finds_typed_title_witness :
  let t := [storage.mk_row "Alien" 1979 (85 # 10) "N/A";
            storage.mk_row "Star Wars" 1977 (86 # 10) ""] in
  In (@match_line sample_runtime ("Star Wars", mk_info 1977 (86 # 10) ""))
    (storage.printed
       (@movies.search_movie sample_runtime storage.Healthy "  STAR wars " t)).
Proof.
  intros t.
  apply (@search_finds_typed_title sample_runtime t
           (storage.mk_row "Star Wars" 1977 (86 # 10) "") "  STAR wars ").
  - unfold t. explicit_list.
  - unfold t. explicit_list.
  - discriminate.
  - reflexivity.
Defined.

Lemma generate_website_without_template_or_tokens_witness :
  let t := [storage.mk_row "Alien" 1979 (85 # 10) "N/A"] in
  storage.outcome
    (@movies.generate_website sample_runtime storage.Healthy
       (Some "<html>__TEMPLATE__</html>") t)
  = Returned (Some "<html>__TEMPLATE__</html>") /\
  storage.outcome
    (@movies.generate_website sample_runtime storage.Healthy None t)
  = Returned None.
Proof.
  intros t.
  assert (Hu : storage.unique_titles t) by (unfold t; explicit_list).
  destruct (@generate_website_without_template_or_tokens sample_runtime
              "<html>__TEMPLATE__</html>" t Hu) as (Hnone & Hsame).
  split.
  - apply Hsame. reflexivity.
  - rewrite Hnone. reflexivity.
Defined.

(** ** What is read from the answer of the metadata service *)

Lemma substring_first (n : nat) (s tail : string) :
  String.length s = n -> substring 0 n (s ++ tail) = s.
Proof.
  revert s. induction n as [|n IH]; intros s Hs.
  - destruct s; [|discriminate Hs]. destruct tail; reflexivity.
  - destruct s as [|c s]; [discriminate Hs|]. simpl. f_equal.
    apply IH. simpl in Hs. lia.
Qed.

Section Answer.

Context {RT : PyRuntime}.

(** X20.  From a positive answer [fetch_movie_data] returns the title and
    the poster of the answer, or the typed title and an empty poster where
    the answer has none, together with the parsed rating.  Of the year only
    the first four characters are parsed, so a range of years gives its
    first year; an answer without a year gives what ["0"] parses to. *)
Theorem fetch_movie_data_reads_answer
  (API_KEY : string) (http : string -> movies.http_outcome) (title : string)
  (data : list (string * string)) (r : Q) (t : storage.table) :
  API_KEY <> "" ->
  http title = movies.JsonObject data ->
  movies.json_get data "Response" = Some "True" ->
  float_of_str (movies.json_get_default data "imdbRating" "0") = Some r ->
  (forall y4 tail y,
      movies.json_get data "Year" = Some (y4 ++ tail) ->
      String.length y4 = 4%nat ->
      int_of_str y4 = Some y ->
      movies.fetch_movie_data API_KEY http title t
      = storage.mk_effect
          (Returned
             (Some (movies.mk_data (movies.json_get_default data "Title" title)
                      y r (movies.json_get_default data "Poster" ""))))
          [] t) /\
  (forall y,
      movies.json_get data "Year" = None ->
      int_of_str "0" = Some y ->
      movies.fetch_movie_data API_KEY http title t
      = storage.mk_effect
          (Returned
             (Some (movies.mk_data (movies.json_get_default data "Title" title)
                      y r (movies.json_get_default data "Poster" ""))))
          [] t).
Proof.
  intros Hkey Hhttp Hresp Hr.
  apply String.eqb_neq in Hkey.
  split.
  - intros y4 tail y Hyear Hlen Hy. unfold movies.fetch_movie_data.
    rewrite Hkey, Hhttp, Hresp.
    unfold movies.json_get_default at 1. rewrite Hyear.
    rewrite (substring_first 4 y4 tail Hlen), Hy, Hr. reflexivity.
  - intros y Hyear Hy. unfold movies.fetch_movie_data.
    rewrite Hkey, Hhttp, Hresp.
    unfold movies.json_get_default at 1. rewrite Hyear.
    change (substring 0 4 "0") with "0". rewrite Hy, Hr. reflexivity.
Qed.

End Answer.

Lemma fetch_movie_data_reads_answer_witness :
  let http := fun _ : string =>
    movies.JsonObject [("Title", "Game of Thrones"); ("Year", "2011-2019");
                       ("imdbRating", "9"); ("Response", "True")] in
  @movies.fetch_movie_data sample_runtime "key" http "game of thrones" []
  = storage.mk_effect
      (Returned (Some (movies.mk_data "Game of Thrones" 2011 (9 # 1) "")))
      [] [].
Proof.
  intros http.
  destruct (@fetch_movie_data_reads_answer sample_runtime "key" http
              "game of thrones"
              [("Title", "Game of Thrones"); ("Year", "2011-2019");
               ("imdbRating", "9"); ("Response", "True")] (9 # 1) [])
    as (Hyear & _).
  - discriminate.
  - reflexivity.
  - reflexivity.
  - reflexivity.
  - apply (Hyear "2011" "-2019" 2011%Z); reflexivity.
Defined.
